(** * flask-request-response-processor: formatters and lifecycle hooks

    A shallow embedding of [Formatter.py] and [Processor.py].

    Python values the code touches are given as Rocq data: [bytes] as
    [list byte], [str] as the list of its Unicode code points, exceptions
    as an enumeration of the classes involved with their base classes,
    and a call that may raise as an [outcome].  The Flask request and
    response objects are records of what the code reads from them. *)

From Stdlib Require Import ZArith NArith List Bool String Ascii Lia.
From Stdlib.Strings Require Import Byte.
From Stdlib Require Import DecimalString.
From stdpp Require Import base option list gmap strings.

Local Open Scope N_scope.

(** ** Python: exceptions, results, text *)

Module Python.

(** The exception classes that can occur in the two modules, and a
    class [UserError n] for exceptions defined by the host application. *)
Inductive exn : Type :=
| BaseException
| Exception
| KeyboardInterrupt
| SystemExit
| ValueError
| UnicodeError
| UnicodeDecodeError
| UnicodeEncodeError
| JSONDecodeError
| RuntimeError
| RecursionError
| TypeError
| AttributeError
| UserError (n : nat).

#[global] Instance exn_eq_dec : EqDecision exn.
Proof. solve_decision. Defined.

(** The direct base class, [None] at the root of the hierarchy. *)
Definition exn_base (e : exn) : option exn :=
  match e with
  | BaseException => None
  | Exception | KeyboardInterrupt | SystemExit => Some BaseException
  | ValueError | RuntimeError | TypeError | AttributeError
  | UserError _ => Some Exception
  | UnicodeError | JSONDecodeError => Some ValueError
  | UnicodeDecodeError | UnicodeEncodeError => Some UnicodeError
  | RecursionError => Some RuntimeError
  end.

Fixpoint issubclass_fuel (fuel : nat) (e cls : exn) : bool :=
  if bool_decide (e = cls) then true
  else match fuel, exn_base e with
       | S fuel', Some b => issubclass_fuel fuel' b cls
       | _, _ => false
       end.

(** [issubclass e cls]: what [except cls] tests on a raised [e].  The
    hierarchy is four levels deep. *)
Definition issubclass (e cls : exn) : bool := issubclass_fuel 4 e cls.

(** The result of evaluating an expression: a value, or a raised
    exception. *)
Inductive outcome (A : Type) : Type :=
| Returned (a : A)
| Raised (e : exn).
Arguments Returned {A} a.
Arguments Raised {A} e.

(** [try: body / except cls: handler]. *)
Definition try_except {A} (body : outcome A) (cls : exn)
    (handler : outcome A) : outcome A :=
  match body with
  | Returned a => Returned a
  | Raised e => if issubclass e cls then handler else Raised e
  end.

Definition bind {A B} (x : outcome A) (k : A -> outcome B) : outcome B :=
  match x with
  | Returned a => k a
  | Raised e => Raised e
  end.

(** A [str] is the sequence of its code points. *)
Abbreviation pystr := (list N).

Definition py (s : string) : pystr :=
  List.map N_of_ascii (list_ascii_of_string s).

(** *** [bytes.decode('utf-8')] *)

Definition in_range (lo hi x : N) : bool := (lo <=? x) && (x <=? hi).

(** Strict UTF-8: shortest forms only, no surrogates, at most U+10FFFF. *)
Fixpoint utf8_decode (bs : list byte) : option pystr :=
  match bs with
  | [] => Some []
  | b0 :: r0 =>
    let x0 := Byte.to_N b0 in
    if x0 <? 0x80 then cons x0 <$> utf8_decode r0
    else if in_range 0xC2 0xDF x0 then
      match r0 with
      | b1 :: r1 =>
        let x1 := Byte.to_N b1 in
        if in_range 0x80 0xBF x1
        then cons ((x0 - 0xC0) * 0x40 + (x1 - 0x80)) <$> utf8_decode r1
        else None
      | _ => None
      end
    else if in_range 0xE0 0xEF x0 then
      match r0 with
      | b1 :: b2 :: r2 =>
        let x1 := Byte.to_N b1 in
        let x2 := Byte.to_N b2 in
        if in_range (if x0 =? 0xE0 then 0xA0 else 0x80)
                    (if x0 =? 0xED then 0x9F else 0xBF) x1
           && in_range 0x80 0xBF x2
        then cons ((x0 - 0xE0) * 0x1000 + (x1 - 0x80) * 0x40 + (x2 - 0x80))
               <$> utf8_decode r2
        else None
      | _ => None
      end
    else if in_range 0xF0 0xF4 x0 then
      match r0 with
      | b1 :: b2 :: b3 :: r3 =>
        let x1 := Byte.to_N b1 in
        let x2 := Byte.to_N b2 in
        let x3 := Byte.to_N b3 in
        if in_range (if x0 =? 0xF0 then 0x90 else 0x80)
                    (if x0 =? 0xF4 then 0x8F else 0xBF) x1
           && in_range 0x80 0xBF x2 && in_range 0x80 0xBF x3
        then cons ((x0 - 0xF0) * 0x40000 + (x1 - 0x80) * 0x1000
                   + (x2 - 0x80) * 0x40 + (x3 - 0x80))
               <$> utf8_decode r3
        else None
      | _ => None
      end
    else None
  end.

(** [bs.decode('utf-8')] raises [UnicodeDecodeError] on malformed input. *)
Definition bytes_decode (bs : list byte) : outcome pystr :=
  match utf8_decode bs with
  | Some s => Returned s
  | None => Raised UnicodeDecodeError
  end.

(** *** [str.encode('utf-8')] *)

Definition byte_of (n : N) : byte := default x00 (Byte.of_N n).

(** The characters that have a UTF-8 encoding: every code point up to
    U+10FFFF that is not a surrogate. *)
Definition is_scalar (c : N) : bool :=
  (c <? 0xD800) || in_range 0xE000 0x10FFFF c.

Definition utf8_encode_char (c : N) : list byte :=
  if c <? 0x80 then [byte_of c]
  else if c <? 0x800 then
    [byte_of (0xC0 + c / 0x40); byte_of (0x80 + c mod 0x40)]
  else if c <? 0x10000 then
    [byte_of (0xE0 + c / 0x1000); byte_of (0x80 + c / 0x40 mod 0x40);
     byte_of (0x80 + c mod 0x40)]
  else
    [byte_of (0xF0 + c / 0x40000); byte_of (0x80 + c / 0x1000 mod 0x40);
     byte_of (0x80 + c / 0x40 mod 0x40); byte_of (0x80 + c mod 0x40)].

(** [s.encode('utf-8')] raises [UnicodeEncodeError] on a surrogate. *)
Definition str_encode (s : pystr) : outcome (list byte) :=
  if forallb is_scalar s
  then Returned (flat_map utf8_encode_char s)
  else Raised UnicodeEncodeError.

(** *** Values

    The objects that reach the code as configuration values and as
    decoded JSON: [None], [bool], [int], [str], [list], [tuple] and
    [dict] with [str] keys in insertion order.  Floating-point numbers
    are left out of the embedding. *)
#[warnings="-register-all"]
Inductive value : Type :=
| VNone
| VBool (b : bool)
| VInt (z : Z)
| VStr (s : pystr)
| VList (l : list value)
| VTuple (l : list value)
| VDict (items : list (pystr * value)).

(** [o is None] *)
Definition is_None (o : value) : bool :=
  match o with
  | VNone => true
  | _ => false
  end.

(** [x == v] for an [int] [x]: equal to the same [int], and to the
    [bool] of the same numeric value. *)
Definition int_eq (x : Z) (v : value) : bool :=
  match v with
  | VInt z => (x =? z)%Z
  | VBool b => (x =? Z.b2z b)%Z
  | _ => false
  end.

(** [x in l] for an [int] [x] and a [list] [l]. *)
Definition int_in (x : Z) (l : list value) : bool := existsb (int_eq x) l.


(** *** [json.dumps] *)

Definition hex_digit (n : N) : N := if n <? 10 then 48 + n else 87 + n.

(** ['\\u{0:04x}'.format(n)] *)
Definition u_escape (n : N) : pystr :=
  [92; 117; hex_digit (n / 4096 mod 16); hex_digit (n / 256 mod 16);
   hex_digit (n / 16 mod 16); hex_digit (n mod 16)].

(** One character of a string under [ensure_ascii=True]: backslash and
    the double quote are escaped, the printable ASCII characters are kept,
    and every other character becomes a short escape or one or two
    [\uXXXX] groups. *)
Definition escape_char (c : N) : pystr :=
  if c =? 92 then [92; 92]
  else if c =? 34 then [92; 34]
  else if in_range 32 126 c then [c]
  else if c =? 10 then [92; 110]
  else if c =? 13 then [92; 114]
  else if c =? 9 then [92; 116]
  else if c =? 12 then [92; 102]
  else if c =? 8 then [92; 98]
  else if c <? 0x10000 then u_escape c
  else
    let n := c - 0x10000 in
    u_escape (N.lor 0xd800 (N.land (N.shiftr n 10) 0x3ff))
    ++ u_escape (N.lor 0xdc00 (N.land n 0x3ff)).

Definition encode_str (s : pystr) : pystr :=
  [34] ++ flat_map escape_char s ++ [34].

(** [int.__repr__] *)
Definition int_repr (z : Z) : pystr :=
  py (NilZero.string_of_int (Z.to_int z)).

Fixpoint join (sep : pystr) (parts : list pystr) : pystr :=
  match parts with
  | [] => []
  | [p] => p
  | p :: rest => p ++ sep ++ join sep rest
  end.

(** The encoder, for [separators=(item_separator, key_separator)] and the
    other options at their defaults. *)
Fixpoint encode (item_separator key_separator : pystr) (o : value)
    : pystr :=
  match o with
  | VNone => py "null"
  | VBool true => py "true"
  | VBool false => py "false"
  | VInt z => int_repr z
  | VStr s => encode_str s
  | VList l | VTuple l =>
    [91] ++ join item_separator
              (List.map (encode item_separator key_separator) l) ++ [93]
  | VDict items =>
    [123] ++ join item_separator
               (List.map (fun kv => encode_str (fst kv) ++ key_separator
                            ++ encode item_separator key_separator (snd kv))
                         items) ++ [125]
  end.

(** [json.dumps(o, separators=separators)].  On the values above the
    encoder always produces a text. *)
Definition json_dumps (o : value) (separators : pystr * pystr)
    : outcome pystr :=
  Returned (encode (fst separators) (snd separators) o).

(** The number of space characters of a text, and of the strings and
    keys of a value. *)
Definition count_space (s : pystr) : nat :=
  length (List.filter (N.eqb 32) s).

(** A text of printable ASCII characters only. *)
Definition printable (s : pystr) : Prop :=
  Forall (fun c => 32 <= c <= 126) s.


End Python.

Import Python.


(** ** Flask: what the code reads from a request and from a response *)

Module Flask.

Record Request : Type := {
  (** [request.query_string] *)
  query_string : list byte;
  (** [request.headers.to_wsgi_list()]: a list of tuples of strings *)
  headers_to_wsgi_list : list (list pystr);
  (** [request.get_data()] *)
  get_data : list byte;
  (** [request.get_json(silent=True)]: the decoded body, or [None] *)
  get_json_silent : value;
  method : pystr;
  path : pystr
}.

Record Response : Type := {
  status_code : Z;
  (** [response.content_type]: the header value, or [None] *)
  content_type : option pystr;
  (** [response.get_data(as_text=True)], which raises when the body
      cannot be given as text *)
  get_data_as_text : outcome pystr
}.

End Flask.

(** ** Formatter.py

    The accessors are [cached_property]s: the first access computes the
    value from the wrapped object and later accesses return the stored
    one.  Each is given here as the function of the wrapped object that
    the first access computes. *)

Definition __json_separators__ : pystr * pystr := (py ",", py ":").

Module FlaskRequestFormatter.

Definition query_string (__request__ : Flask.Request) : outcome pystr :=
  try_except (bytes_decode (Flask.query_string __request__))
             UnicodeEncodeError
             (Returned (py "")).

(** [{header[0]: header[1] for header in headers if len(header) == 2}]:
    the pairs are taken in order, each assignment to a key that is
    already there replaces its value. *)
Definition headers_step (d : gmap pystr pystr) (header : list pystr)
    : gmap pystr pystr :=
  if (length header =? 2)%nat
  then match header with
       | h0 :: h1 :: _ => <[h0 := h1]> d
       | _ => d
       end
  else d.

Definition headers_dict (headers : list (list pystr)) : gmap pystr pystr :=
  foldl headers_step ∅ headers.

Definition headers (__request__ : Flask.Request) : gmap pystr pystr :=
  let headers := Flask.headers_to_wsgi_list __request__ in
  headers_dict headers.

Definition payload_raw (__request__ : Flask.Request) : outcome pystr :=
  try_except (bytes_decode (Flask.get_data __request__))
             UnicodeEncodeError
             (Returned (py "")).

Definition payload_json (__request__ : Flask.Request) : value :=
  Flask.get_json_silent __request__.

Definition payload_json_compressed_str (__request__ : Flask.Request)
    : outcome pystr :=
  try_except (json_dumps (payload_json __request__) __json_separators__)
             JSONDecodeError
             (Returned (py "")).

(** ['Content-Type' in headers_js
     and headers_js['Content-Type'] == 'application/json'
     and self.payload_json is not None] *)
Definition payload_is_json (__request__ : Flask.Request) : bool :=
  let headers_js := headers __request__ in
  match headers_js !! py "Content-Type" with
  | Some v =>
    bool_decide (v = py "application/json")
    && negb (is_None (payload_json __request__))
  | None => false
  end.

End FlaskRequestFormatter.

(** *** The request formatter as an object with its instance dictionary

    [cached_property] looks the attribute name up in the instance
    dictionary; when it is absent the decorated function is run on the
    instance and, if it returns, its value is stored under the name.  A
    function that raises stores nothing. *)

Module RequestFormatterObject.

(** The instance dictionary, one entry per cached property. *)
Record Dict : Type := {
  query_string : option pystr;
  headers : option (gmap pystr pystr);
  payload_raw : option pystr;
  payload_json : option value;
  payload_json_compressed_str : option pystr;
  payload_is_json : option bool
}.

Record t : Type := {
  __request__ : Flask.Request;
  __dict__ : Dict
}.

(** [FlaskRequestFormatter(request=request)] *)
Definition init (request : Flask.Request) : t :=
  {| __request__ := request;
     __dict__ := {| query_string := None; headers := None;
                    payload_raw := None; payload_json := None;
                    payload_json_compressed_str := None;
                    payload_is_json := None |} |}.

(** An attribute name of the instance dictionary: how it is read and how
    it is assigned. *)
Record Attr (A : Type) : Type := {
  lookup_attr : Dict -> option A;
  store_attr : A -> Dict -> Dict
}.
Arguments lookup_attr {A} _ _.
Arguments store_attr {A} _ _ _.

Definition attr_query_string : Attr pystr :=
  {| lookup_attr := query_string;
     store_attr v d :=
       {| query_string := Some v; headers := headers d;
          payload_raw := payload_raw d; payload_json := payload_json d;
          payload_json_compressed_str := payload_json_compressed_str d;
          payload_is_json := payload_is_json d |} |}.

Definition attr_headers : Attr (gmap pystr pystr) :=
  {| lookup_attr := headers;
     store_attr v d :=
       {| query_string := query_string d; headers := Some v;
          payload_raw := payload_raw d; payload_json := payload_json d;
          payload_json_compressed_str := payload_json_compressed_str d;
          payload_is_json := payload_is_json d |} |}.

Definition attr_payload_raw : Attr pystr :=
  {| lookup_attr := payload_raw;
     store_attr v d :=
       {| query_string := query_string d; headers := headers d;
          payload_raw := Some v; payload_json := payload_json d;
          payload_json_compressed_str := payload_json_compressed_str d;
          payload_is_json := payload_is_json d |} |}.

Definition attr_payload_json : Attr value :=
  {| lookup_attr := payload_json;
     store_attr v d :=
       {| query_string := query_string d; headers := headers d;
          payload_raw := payload_raw d; payload_json := Some v;
          payload_json_compressed_str := payload_json_compressed_str d;
          payload_is_json := payload_is_json d |} |}.

Definition attr_payload_json_compressed_str : Attr pystr :=
  {| lookup_attr := payload_json_compressed_str;
     store_attr v d :=
       {| query_string := query_string d; headers := headers d;
          payload_raw := payload_raw d; payload_json := payload_json d;
          payload_json_compressed_str := Some v;
          payload_is_json := payload_is_json d |} |}.

Definition attr_payload_is_json : Attr bool :=
  {| lookup_attr := payload_is_json;
     store_attr v d :=
       {| query_string := query_string d; headers := headers d;
          payload_raw := payload_raw d; payload_json := payload_json d;
          payload_json_compressed_str := payload_json_compressed_str d;
          payload_is_json := Some v |} |}.

(** An attribute access: a result and the instance afterwards. *)
Definition Access (A : Type) : Type := t -> outcome A * t.

Definition cached_property {A} (name : Attr A) (func : Access A)
    : Access A := fun self =>
  match lookup_attr name (__dict__ self) with
  | Some val => (Returned val, self)
  | None =>
    match func self with
    | (Returned val, self') =>
      (Returned val,
       {| __request__ := __request__ self';
          __dict__ := store_attr name val (__dict__ self') |})
    | (Raised e, self') => (Raised e, self')
    end
  end.

(** [self.query_string] *)
Definition get_query_string : Access pystr :=
  cached_property attr_query_string (fun self =>
    (try_except (bytes_decode (Flask.query_string (__request__ self)))
                UnicodeEncodeError (Returned (py "")),
     self)).

(** [self.headers] *)
Definition get_headers : Access (gmap pystr pystr) :=
  cached_property attr_headers (fun self =>
    (Returned (FlaskRequestFormatter.headers_dict
                 (Flask.headers_to_wsgi_list (__request__ self))),
     self)).

(** [self.payload_raw] *)
Definition get_payload_raw : Access pystr :=
  cached_property attr_payload_raw (fun self =>
    (try_except (bytes_decode (Flask.get_data (__request__ self)))
                UnicodeEncodeError (Returned (py "")),
     self)).

(** [self.payload_json] *)
Definition get_payload_json : Access value :=
  cached_property attr_payload_json (fun self =>
    (Returned (Flask.get_json_silent (__request__ self)), self)).

(** [self.payload_json_compressed_str]: the function reads
    [self.payload_json]. *)
Definition get_payload_json_compressed_str : Access pystr :=
  cached_property attr_payload_json_compressed_str (fun self =>
    match get_payload_json self with
    | (Returned o, self') =>
      (try_except (json_dumps o __json_separators__)
                  JSONDecodeError (Returned (py "")),
       self')
    | (Raised e, self') =>
      (try_except (Raised e) JSONDecodeError (Returned (py "")), self')
    end).

(** [self.payload_is_json]: the function reads [self.headers], and reads
    [self.payload_json] only when the content type is
    [application/json]. *)
Definition get_payload_is_json : Access bool :=
  cached_property attr_payload_is_json (fun self =>
    match get_headers self with
    | (Returned headers_js, self') =>
      match headers_js !! py "Content-Type" with
      | Some v =>
        if bool_decide (v = py "application/json")
        then match get_payload_json self' with
             | (Returned o, self'') => (Returned (negb (is_None o)), self'')
             | (Raised e, self'') => (Raised e, self'')
             end
        else (Returned false, self')
      | None => (Returned false, self')
      end
    | (Raised e, self') => (Raised e, self')
    end).

(** The wrapped request changes under the formatter. *)
Definition with_request (request : Flask.Request) (self : t) : t :=
  {| __request__ := request; __dict__ := __dict__ self |}.

(** Every stored value is the one the wrapped request gives. *)
Definition consistent (self : t) : Prop :=
  let r := __request__ self in
  let d := __dict__ self in
  (forall v, query_string d = Some v ->
             FlaskRequestFormatter.query_string r = Returned v)
  /\ (forall v, headers d = Some v -> FlaskRequestFormatter.headers r = v)
  /\ (forall v, payload_raw d = Some v ->
                FlaskRequestFormatter.payload_raw r = Returned v)
  /\ (forall v, payload_json d = Some v ->
                FlaskRequestFormatter.payload_json r = v)
  /\ (forall v, payload_json_compressed_str d = Some v ->
                FlaskRequestFormatter.payload_json_compressed_str r
                = Returned v)
  /\ (forall v, payload_is_json d = Some v ->
                FlaskRequestFormatter.payload_is_json r = v).

(** What an access keeps: the wrapped request, and the agreement of the
    stored values with it. *)
Definition kept (self self' : t) : Prop :=
  __request__ self' = __request__ self /\ consistent self'.

End RequestFormatterObject.

Module FlaskResponseFormatter.
Section Decoder.

(** [json.loads] on a [str]: the decoded value, or the exception it
    raises ([JSONDecodeError] for a text that is not JSON). *)
Variable json_loads : pystr -> outcome value.

Definition response_raw (__response__ : Flask.Response) : outcome pystr :=
  try_except (Flask.get_data_as_text __response__)
             RuntimeError
             (Returned (py "")).

Definition response_json (__response__ : Flask.Response) : outcome value :=
  let response_data := VNone in
  try_except (bind (response_raw __response__) json_loads)
             JSONDecodeError
             (Returned response_data).

Definition response_json_compressed_str (__response__ : Flask.Response)
    : outcome pystr :=
  try_except (bind (response_json __response__)
                   (fun o => json_dumps o __json_separators__))
             JSONDecodeError
             (Returned (py "")).

Definition response_is_json (__response__ : Flask.Response)
    : outcome bool :=
  if bool_decide (Flask.content_type __response__
                  = Some (py "application/json"))
  then bind (response_json __response__)
            (fun o => Returned (negb (is_None o)))
  else Returned false.

End Decoder.
End FlaskResponseFormatter.

(** ** Processor.py *)

Module Processor.

(** [str.strip()]: the characters for which [str.isspace] holds are
    removed from both ends. *)
Definition isspace (c : N) : bool :=
  in_range 9 13 c || in_range 28 32 c || (c =? 133) || (c =? 160)
  || (c =? 5760) || in_range 8192 8202 c || (c =? 8232) || (c =? 8233)
  || (c =? 8239) || (c =? 8287) || (c =? 12288).

Fixpoint lstrip (s : pystr) : pystr :=
  match s with
  | c :: r => if isspace c then lstrip r else s
  | [] => []
  end.

Definition strip (s : pystr) : pystr := rev (lstrip (rev (lstrip s))).

(** A UTC instant, in microseconds. *)
Definition Time : Type := Z.
Bind Scope Z_scope with Time.

(** The request-bound object [flask.g], as far as the hooks use it. *)
Record G : Type := { frr_start_time : option Time }.

(** [app.config]: a dictionary from names to values. *)
Abbreviation Config := (gmap pystr value).

(** [app.config.get(key)] *)
Definition config_get (config : Config) (key : pystr) : value :=
  default VNone (config !! key).

(** The locals of [init_app] that the [after_request] closure keeps. *)
Record Closure : Type := {
  filter_status_codes : list value;
  filter_status_codes_exclude_only : bool;
  filter_status_codes_empty : bool
}.

(** The application: its configuration and the functions registered with
    [app.before_request] and [app.after_request].  A [before_request]
    function of this module keeps no local, so only their number is
    recorded. *)
Record App : Type := {
  config : Config;
  before_request_funcs : nat;
  after_request_funcs : list Closure
}.

(** [app.config[key] = v] *)
Definition config_setitem (key : pystr) (v : value) (app : App) : App :=
  {| config := <[key := v]> (config app);
     before_request_funcs := before_request_funcs app;
     after_request_funcs := after_request_funcs app |}.

(** The value of the local [process_func] of [after_request]:
    [True if filter_status_codes_empty is True
     else (response.status_code in filter_status_codes)
          != filter_status_codes_exclude_only] *)
Definition process_func (c : Closure) (response : Flask.Response) : bool :=
  if filter_status_codes_empty c then true
  else xorb (int_in (Flask.status_code response) (filter_status_codes c))
            (filter_status_codes_exclude_only c).

Section Hooks.

(** Everything a callback can read and change besides its arguments. *)
Context {World : Type}.

(** The keyword arguments of the call in [after_request]. *)
Record CallArgs : Type := {
  request : Flask.Request;
  response : Flask.Response;
  request_start_time : Time;
  request_end_time : Time
}.

(** A callback is run on its arguments in a world; it returns or raises
    and leaves a world.  A callback that does not return is outside the
    embedding. *)
Definition Callback : Type := CallArgs -> World -> outcome unit * World.

Inductive event : Type :=
| Called (f : Callback) (args : CallArgs)
| LoggedError (msg : string) (error : exn).

(** The world and the record of the calls and log lines made so far. *)
Record State : Type := { world : World; trace : list event }.

Definition M (A : Type) : Type := State -> outcome A * State.

Definition ret {A} (a : A) : M A := fun st => (Returned a, st).

Definition raise {A} (e : exn) : M A := fun st => (Raised e, st).

Definition mbind {A B} (m : M A) (k : A -> M B) : M B := fun st =>
  match m st with
  | (Returned a, st') => k a st'
  | (Raised e, st') => (Raised e, st')
  end.

(** [try: body / except cls as error: handler error] *)
Definition try_except_as {A} (body : M A) (cls : exn)
    (handler : exn -> M A) : M A := fun st =>
  match body st with
  | (Returned a, st') => (Returned a, st')
  | (Raised e, st') =>
    if issubclass e cls then handler e st' else (Raised e, st')
  end.

(** The call of [f] with the keyword arguments [args]. *)
Definition call (f : Callback) (args : CallArgs) : M unit := fun st =>
  let (r, w) := f args (world st) in
  (r, {| world := w; trace := trace st ++ [Called f args] |}).

(** [logging.error(msg, error)]: a record is emitted, nothing is
    raised. *)
Definition logging_error (msg : string) (error : exn) : M unit :=
  fun st =>
    (Returned tt,
     {| world := world st;
        trace := trace st ++ [LoggedError msg error] |}).

(** [g.frr_start_time] *)
Definition getattr_frr_start_time (g : G) : M Time :=
  match frr_start_time g with
  | Some t => ret t
  | None => raise AttributeError
  end.

Record FlaskRequestResponseProcessor : Type := {
  __label_status_codes__ : pystr;
  __label_status_codes_exclude_only_ : pystr;
  __process_request_response_f__ : option Callback
}.

(** The two assignments of labels in [__init__]; the callback is the
    class attribute, [None]. *)
Definition new (prefix : pystr) : FlaskRequestResponseProcessor :=
  let prefix := strip prefix in
  let prefix :=
    if bool_decide (prefix = py "")
    then py "REQUEST_RESPONSE_PROCESSOR" else prefix in
  {| __label_status_codes__ := prefix ++ py "_STATUS_CODES";
     __label_status_codes_exclude_only_ :=
       prefix ++ py "_STATUS_CODES_EXCLUDE_ONLY";
     __process_request_response_f__ := None |}.

(** What a name at the call site can be bound to. *)
Inductive object : Type :=
| ONone
| OFunction (f : Callback).

(** The decorator: it stores [f]; the body has no [return]. *)
Definition process_request_response
    (self : FlaskRequestResponseProcessor) (f : Callback)
    : FlaskRequestResponseProcessor * object :=
  ({| __label_status_codes__ := __label_status_codes__ self;
      __label_status_codes_exclude_only_ :=
        __label_status_codes_exclude_only_ self;
      __process_request_response_f__ := Some f |},
   ONone).

(** [@self.process_request_response / def name(...)]: the function is
    made, the decorator is applied to it, and [name] is bound to what
    the decorator returned. *)
Definition decorated_def (self : FlaskRequestResponseProcessor)
    (globals : gmap string object) (name : string) (f : Callback)
    : FlaskRequestResponseProcessor * gmap string object :=
  let (self', r) := process_request_response self f in
  (self', <[name := r]> globals).

(** The locals of [init_app] after the two type tests. *)
Definition init_app_closure (self : FlaskRequestResponseProcessor)
    (config : Config) : Closure :=
  let filter_status_codes :=
    match config_get config (__label_status_codes__ self) with
    | VList l => l
    | _ => []
    end in
  let filter_status_codes_exclude_only :=
    match config_get config (__label_status_codes_exclude_only_ self) with
    | VBool b => b
    | _ => false
    end in
  let filter_status_codes_empty :=
    (length filter_status_codes =? 0)%nat in
  {| filter_status_codes := filter_status_codes;
     filter_status_codes_exclude_only := filter_status_codes_exclude_only;
     filter_status_codes_empty := filter_status_codes_empty |}.

Definition init_app (self : FlaskRequestResponseProcessor) (app : App)
    : App :=
  {| config := config app;
     before_request_funcs := S (before_request_funcs app);
     after_request_funcs :=
       after_request_funcs app ++ [init_app_closure self (config app)] |}.

(** [__init__(app, prefix)] *)
Definition init (app : option App) (prefix : pystr)
    : FlaskRequestResponseProcessor * option App :=
  let self := new prefix in
  (self, init_app self <$> app).

(** [g.frr_start_time = datetime.utcnow()] *)
Definition before_request (utcnow : Time) (g : G) : G :=
  {| frr_start_time := Some utcnow |}.

Definition error_message : string :=
  "An execution error occurred on decorator function on after_request; skipping.".

(** The closure [after_request]: [c] holds the locals of [init_app],
    [self] is the processor as it is when the hook runs, [utcnow] is
    the clock reading of its first line. *)
Definition after_request (c : Closure)
    (self : FlaskRequestResponseProcessor)
    (flask_request : Flask.Request) (g : G) (utcnow : Time)
    (response : Flask.Response) : M Flask.Response :=
  let end_time := utcnow in
  let process_func := process_func c response in
  mbind
    (if process_func then
       try_except_as
         (match __process_request_response_f__ self with
          | Some f =>
            mbind (getattr_frr_start_time g) (fun start_time =>
              call f {| request := flask_request;
                        response := response;
                        request_start_time := start_time;
                        request_end_time := end_time |})
          | None => ret tt
          end)
         BaseException
         (fun error => logging_error error_message error)
     else ret tt)
    (fun _ => ret response).

(** A hook run from a world, with an empty record. *)
Definition run {A} (m : M A) (w : World) : outcome A * State :=
  m {| world := w; trace := [] |}.

(** The calls of a record, in order. *)
Definition calls (tr : list event) : list (Callback * CallArgs) :=
  flat_map (fun ev => match ev with
                      | Called f args => [(f, args)]
                      | LoggedError _ _ => []
                      end) tr.

(** The processor after the callbacks [fs] were registered in turn. *)
Definition register_all (self : FlaskRequestResponseProcessor)
    (fs : list Callback) : FlaskRequestResponseProcessor :=
  foldl (fun s f => fst (process_request_response s f)) self fs.

End Hooks.

Arguments Callback : clear implicits.
Arguments event : clear implicits.
Arguments State : clear implicits.
Arguments M : clear implicits.
Arguments FlaskRequestResponseProcessor : clear implicits.
Arguments object : clear implicits.

End Processor.

(** ** test.py: the demo application *)

Module Demo.
Import Processor.

Section Application.

(** [json.loads], as in the response formatter. *)
Variable json_loads : pystr -> outcome value.

(** [str(d)] of a [timedelta] [d], given in microseconds. *)
Variable timedelta_str : Z -> pystr.

(** [t.strftime('%d %B, %Y %H:%M:%S')] *)
Variable strftime : Time -> pystr.

(** The configuration of a new Flask application. *)
Variable default_config : Config.

(** The application after the two assignments to [app.config]. *)
Definition app : App :=
  config_setitem (py "REQUEST_RESPONSE_PROCESSOR_STATUS_CODES_EXCLUDE_ONLY")
    (VBool false)
    (config_setitem (py "REQUEST_RESPONSE_PROCESSOR_STATUS_CODES")
       (VList [VInt 500; VInt 503])
       {| config := default_config;
          before_request_funcs := 0;
          after_request_funcs := [] |}).

(** [payload = request_formatter.payload_json_compressed_str
       if request_formatter.payload_is_json is True
       else request_formatter.payload_raw] *)
Definition payload_of (request : Flask.Request) : outcome pystr :=
  if FlaskRequestFormatter.payload_is_json request
  then FlaskRequestFormatter.payload_json_compressed_str request
  else FlaskRequestFormatter.payload_raw request.

(** [response_data = response_formatter.response_json_compressed_str
       if response_formatter.response_is_json
       else response_formatter.response_raw] *)
Definition response_data_of (response : Flask.Response) : outcome pystr :=
  bind (FlaskResponseFormatter.response_is_json json_loads response)
       (fun is_json =>
          if is_json
          then FlaskResponseFormatter.response_json_compressed_str
                 json_loads response
          else FlaskResponseFormatter.response_raw response).

(** The dictionary given to [logging.error]. *)
Definition record (args : CallArgs) (payload response_data : pystr)
    : value :=
  let request_time :=
    timedelta_str (request_end_time args - request_start_time args) in
  VDict [(py "status_code", VInt (Flask.status_code (response args)));
         (py "path", VStr (Flask.path (request args)));
         (py "payload", VStr payload);
         (py "date", VStr (strftime (request_end_time args)));
         (py "time", VStr request_time);
         (py "method", VStr (Flask.method (request args)));
         (py "response", VStr response_data)].

(** The decorated function.  Its world is the list of the records written
    by [logging.error]. *)
Definition process_request_response : Callback (list value) :=
  fun args records =>
    match bind (payload_of (request args)) (fun payload =>
          bind (response_data_of (response args)) (fun response_data =>
          Returned (record args payload response_data)))
    with
    | Returned d => (Returned tt, records ++ [d])
    | Raised e => (Raised e, records)
    end.

(** [response_handler = FlaskRequestResponseProcessor(app=app)], followed
    by the decorated definition. *)
Definition response_handler
    : FlaskRequestResponseProcessor (list value) * option App :=
  init (Some app) (py "REQUEST_RESPONSE_PROCESSOR").

Definition registered : FlaskRequestResponseProcessor (list value) :=
  fst (decorated_def (fst response_handler) ∅ "process_request_response"
         process_request_response).

(** One request: the before-hook at [start_time], the view's [response],
    then each registered after-hook at [end_time]; the demo registers
    one. *)
Definition serve (start_time end_time : Time) (request : Flask.Request)
    (response : Flask.Response) (records : list value)
    : outcome Flask.Response * State (list value) :=
  let g := before_request start_time {| frr_start_time := None |} in
  match after_request_funcs <$> snd response_handler with
  | Some [c] =>
    run (after_request c registered request g end_time response) records
  | _ => (Returned response, {| world := records; trace := [] |})
  end.

End Application.
End Demo.

(** ** Sample inputs *)

Module Samples.
Import Processor.

(** A [POST] whose body is not UTF-8 (the first bytes of a JPEG file). *)
Definition post_binary : Flask.Request :=
  {| Flask.query_string := [];
     Flask.headers_to_wsgi_list :=
       [[py "Content-Type"; py "application/octet-stream"]];
     Flask.get_data := [xff; xd8; xff; xe0];
     Flask.get_json_silent := VNone;
     Flask.method := py "POST";
     Flask.path := py "/ok" |}.

(** A [GET] whose query string holds the byte 0xFF. *)
Definition get_bad_query : Flask.Request :=
  {| Flask.query_string := [x61; x3d; xff];
     Flask.headers_to_wsgi_list := [];
     Flask.get_data := [];
     Flask.get_json_silent := VNone;
     Flask.method := py "GET";
     Flask.path := py "/ok" |}.

(** The body [{"a":1}] declared as [text/plain]; [j] is what the
    framework's [get_json(silent=True)] makes of it. *)
Definition text_plain_object (j : value) : Flask.Request :=
  {| Flask.query_string := [];
     Flask.headers_to_wsgi_list := [[py "Content-Type"; py "text/plain"]];
     Flask.get_data := [x7b; x22; x61; x22; x3a; x31; x7d];
     Flask.get_json_silent := j;
     Flask.method := py "POST";
     Flask.path := py "/ok" |}.

(** The same body declared as [application/json]. *)
Definition json_object : Flask.Request :=
  {| Flask.query_string := [];
     Flask.headers_to_wsgi_list :=
       [[py "Content-Type"; py "application/json"]];
     Flask.get_data := [x7b; x22; x61; x22; x3a; x31; x7d];
     Flask.get_json_silent := VDict [(py "a", VInt 1)];
     Flask.method := py "POST";
     Flask.path := py "/ok" |}.

(** The body [{"a": 1, "b": "x"}], as a client would indent it, declared
    as [application/json], and what the framework decodes it to. *)
Definition json_a1_bx : Flask.Request :=
  {| Flask.query_string := [];
     Flask.headers_to_wsgi_list :=
       [[py "Content-Type"; py "application/json"]];
     Flask.get_data := [x7b; x22; x61; x22; x3a; x20; x31; x2c; x20;
                        x22; x62; x22; x3a; x20; x22; x78; x22; x7d];
     Flask.get_json_silent :=
       VDict [(py "a", VInt 1); (py "b", VStr (py "x"))];
     Flask.method := py "POST";
     Flask.path := py "/ok" |}.

(** The response of the route [/ok] of the demo application. *)
Definition ok_response : Flask.Response :=
  {| Flask.status_code := 200;
     Flask.content_type := Some (py "text/html; charset=utf-8");
     Flask.get_data_as_text := Returned (py "Ok") |}.

(** The response of [abort(503)]. *)
Definition unavailable_response : Flask.Response :=
  {| Flask.status_code := 503;
     Flask.content_type := Some (py "text/html; charset=utf-8");
     Flask.get_data_as_text := Returned (py "Service Unavailable") |}.

(** A file sent in direct passthrough mode: the body cannot be read. *)
Definition file_response : Flask.Response :=
  {| Flask.status_code := 200;
     Flask.content_type := Some (py "image/jpeg");
     Flask.get_data_as_text := Raised RuntimeError |}.

(** A response declared as JSON whose bytes are not text. *)
Definition garbled_response : Flask.Response :=
  {| Flask.status_code := 200;
     Flask.content_type := Some (py "application/json");
     Flask.get_data_as_text := Raised UnicodeDecodeError |}.

(** A decoder that knows the texts of the two responses above: neither
    is JSON. *)
Definition loads_no_json (s : pystr) : outcome value :=
  Raised JSONDecodeError.

(** Callbacks on a world that counts the records written. *)
Definition log_record : Callback nat :=
  fun _ n => (Returned tt, S n).

Definition failing : Callback nat :=
  fun _ n => (Raised (UserError 0), n).

(** The double quote, for writing expected texts. *)
Definition dq : string := String (ascii_of_nat 34) EmptyString.


End Samples.

(** * Properties *)

Import Processor.

(** ** Python *)

Example decode_ascii :
  bytes_decode [x61; x3d; x31] = Returned (py "a=1").
Proof. reflexivity. Qed.

Example decode_euro :
  bytes_decode [xe2; x82; xac] = Returned [0x20AC].
Proof. reflexivity. Qed.

Example decode_surrogate_rejected :
  bytes_decode [xed; xa0; x80] = Raised UnicodeDecodeError.
Proof. reflexivity. Qed.

Example decode_overlong_rejected :
  bytes_decode [xc0; xaf] = Raised UnicodeDecodeError.
Proof. reflexivity. Qed.

Lemma unicode_decode_error_not_caught :
  issubclass UnicodeDecodeError UnicodeEncodeError = false.
Proof. reflexivity. Qed.

Lemma issubclass_BaseException (e : exn) : issubclass e BaseException = true.
Proof. destruct e; reflexivity. Qed.

(** ** Formatter: decoding *)

(** C2.  The claim holds that no accessor propagates an exception and that
    [query_string] and [payload_raw] give the empty string when the bytes
    are not UTF-8.  On a body that is not UTF-8, and on a query string
    that is not, the decoding raises [UnicodeDecodeError]; the handler of
    the two accessors names [UnicodeEncodeError], which is not a base of
    it, so the exception leaves the accessor. *)
Theorem decode_failure_propagates :
  FlaskRequestFormatter.payload_raw Samples.post_binary
    = Raised UnicodeDecodeError
  /\ FlaskRequestFormatter.query_string Samples.get_bad_query
    = Raised UnicodeDecodeError
  /\ FlaskRequestFormatter.payload_raw Samples.post_binary
    <> Returned (py "")
  /\ FlaskRequestFormatter.query_string Samples.get_bad_query
    <> Returned (py "").
Proof. repeat split; try reflexivity; discriminate. Qed.

(** The two accessors return the decoded text whenever there is one. *)
Lemma payload_raw_decoded (r : Flask.Request) (s : pystr) :
  utf8_decode (Flask.get_data r) = Some s ->
  FlaskRequestFormatter.payload_raw r = Returned s.
Proof.
  intros H. unfold FlaskRequestFormatter.payload_raw, bytes_decode.
  now rewrite H.
Qed.

(** ** Formatter: classification *)

(** C4.  [payload_is_json] is true exactly when the header mapping gives
    [application/json] for [Content-Type] and the decoded payload is not
    [None]; [response_is_json] is true exactly when the response's content
    type is [application/json] and the decoded body is a value other than
    [None].  The body [{"a":1}] sent as [text/plain] is classified false,
    whatever the framework decodes it to. *)
Theorem is_json_iff :
  (forall r : Flask.Request,
      FlaskRequestFormatter.payload_is_json r = true
      <-> FlaskRequestFormatter.headers r !! py "Content-Type"
            = Some (py "application/json")
          /\ FlaskRequestFormatter.payload_json r <> VNone)
  /\ (forall (json_loads : pystr -> outcome value) (r : Flask.Response),
         FlaskResponseFormatter.response_is_json json_loads r = Returned true
         <-> Flask.content_type r = Some (py "application/json")
             /\ exists o, FlaskResponseFormatter.response_json json_loads r
                            = Returned o
                          /\ o <> VNone)
  /\ (forall j : value,
         FlaskRequestFormatter.payload_is_json (Samples.text_plain_object j)
         = false).
Proof.
  split; [| split].
  - intros r. unfold FlaskRequestFormatter.payload_is_json.
    destruct (FlaskRequestFormatter.headers r !! py "Content-Type")
      as [v|] eqn:Hct; cbn zeta.
    + rewrite andb_true_iff, negb_true_iff, bool_decide_eq_true.
      split.
      * intros [-> Hn]. split; [reflexivity|].
        intros Heq. rewrite Heq in Hn. discriminate.
      * intros [Heq Hn]. injection Heq as ->. split; [reflexivity|].
        destruct (FlaskRequestFormatter.payload_json r); try reflexivity.
        now contradiction Hn.
    + split; [discriminate | intros [Heq _]; discriminate].
  - intros json_loads r. unfold FlaskResponseFormatter.response_is_json.
    case_bool_decide as Hct.
    + destruct (FlaskResponseFormatter.response_json json_loads r)
        as [o|e]; cbn.
      * split.
        -- intros Ho. split; [assumption|]. exists o. split; [reflexivity|].
           intros ->. discriminate.
        -- intros [_ (o' & Ho' & Hn)]. injection Ho' as <-.
           destruct o; try reflexivity. now contradiction Hn.
      * split; [discriminate|]. intros [_ (o' & Ho' & _)]. discriminate.
    + split; [discriminate|]. intros [Heq _]. contradiction.
  - intros j. reflexivity.
Qed.

(** ** Formatter: serialization of [None] *)

(** C9.  When the payload did not decode ([payload_json] is [None]) the
    compressed text is the four characters [null], not the empty text; the
    same holds for a response whose body the decoder rejects as JSON. *)
Theorem compressed_str_of_None
    (json_loads : pystr -> outcome value)
    (request : Flask.Request) (response : Flask.Response) (body : pystr) :
  FlaskRequestFormatter.payload_json request = VNone ->
  FlaskResponseFormatter.response_raw response = Returned body ->
  json_loads body = Raised JSONDecodeError ->
  FlaskRequestFormatter.payload_json_compressed_str request
    = Returned (py "null")
  /\ FlaskResponseFormatter.response_json json_loads response
    = Returned VNone
  /\ FlaskResponseFormatter.response_json_compressed_str json_loads response
    = Returned (py "null")
  /\ py "null" <> py "".
Proof.
  intros Hreq Hraw Hloads.
  assert (Hjson : FlaskResponseFormatter.response_json json_loads response
                  = Returned VNone).
  { unfold FlaskResponseFormatter.response_json.
    rewrite Hraw. cbn [bind]. rewrite Hloads. reflexivity. }
  repeat split.
  - unfold FlaskRequestFormatter.payload_json_compressed_str.
    rewrite Hreq. reflexivity.
  - exact Hjson.
  - unfold FlaskResponseFormatter.response_json_compressed_str.
    rewrite Hjson. reflexivity.
  - discriminate.
Qed.

Lemma compressed_str_of_None_witness :
  FlaskRequestFormatter.payload_json_compressed_str Samples.post_binary
    = Returned (py "null")
  /\ FlaskResponseFormatter.response_json
       Samples.loads_no_json Samples.ok_response
    = Returned VNone
  /\ FlaskResponseFormatter.response_json_compressed_str
       Samples.loads_no_json Samples.ok_response
    = Returned (py "null")
  /\ py "null" <> py "".
Proof.
  apply (compressed_str_of_None Samples.loads_no_json Samples.post_binary
           Samples.ok_response (py "Ok")); reflexivity.
Defined.

(** ** Processor: registration *)

Section Registration.
Context {World : Type}.
Implicit Types (self : FlaskRequestResponseProcessor World)
               (f : Callback World) (c : Closure) (w : World).

Lemma after_request_unregistered self c request g utcnow response w :
  __process_request_response_f__ self = None ->
  run (after_request c self request g utcnow response) w
  = (Returned response, {| world := w; trace := [] |}).
Proof.
  intros Hf. unfold run, after_request, mbind, try_except_as, ret.
  rewrite Hf. destruct (process_func c response); reflexivity.
Qed.

(** What the hook does with a registered callback once the before-hook
    has stamped the request: nothing when the filter rejects the status
    code; otherwise one call, followed by one log line if it raised. *)
Lemma after_request_registered self c f request g start utcnow response w :
  __process_request_response_f__ self = Some f ->
  frr_start_time g = Some start ->
  let args := {| request := request; response := response;
                 request_start_time := start;
                 request_end_time := utcnow |} in
  run (after_request c self request g utcnow response) w
  = if process_func c response
    then match f args w with
         | (Returned _, w') =>
           (Returned response,
            {| world := w'; trace := [Called f args] |})
         | (Raised e, w') =>
           (Returned response,
            {| world := w';
               trace := [Called f args; LoggedError error_message e] |})
         end
    else (Returned response, {| world := w; trace := [] |}).
Proof.
  intros Hf Hg args.
  unfold run, after_request, mbind, try_except_as, ret,
    getattr_frr_start_time, call, logging_error.
  rewrite Hf, Hg. destruct (process_func c response); [|reflexivity].
  cbn -[issubclass]. fold args.
  destruct (f args w) as [[u|e] w']; cbn -[issubclass].
  - reflexivity.
  - rewrite issubclass_BaseException. reflexivity.
Qed.

Lemma register_all_snoc self fs f :
  __process_request_response_f__ (register_all self (fs ++ [f])) = Some f.
Proof. unfold register_all. rewrite foldl_app. reflexivity. Qed.

End Registration.

(** ** Processor: initialization *)

Section Initialization.
Context {World : Type}.

Lemma labels_differ (prefix : pystr) :
  __label_status_codes__ (new (World := World) prefix)
  <> __label_status_codes_exclude_only_ (new (World := World) prefix).
Proof.
  unfold new. cbn [__label_status_codes__ __label_status_codes_exclude_only_].
  intros H. apply app_inv_head in H. discriminate H.
Qed.

(** A store that holds a list and a flag under the two labels gives the
    closure exactly that list and that flag. *)
Lemma init_app_closure_configured (prefix : pystr) (codes : list value)
    (excl : bool) (config0 : Config) :
  let self := new (World := World) prefix in
  init_app_closure self
    (<[__label_status_codes__ self := VList codes]>
       (<[__label_status_codes_exclude_only_ self := VBool excl]> config0))
  = {| filter_status_codes := codes;
       filter_status_codes_exclude_only := excl;
       filter_status_codes_empty := (length codes =? 0)%nat |}.
Proof.
  intros self. unfold init_app_closure, config_get.
  rewrite lookup_insert_eq.
  rewrite lookup_insert_ne by apply labels_differ.
  rewrite lookup_insert_eq. reflexivity.
Qed.


End Initialization.

Lemma process_func_spec (codes : list value) (excl : bool)
    (response : Flask.Response) :
  process_func {| filter_status_codes := codes;
                  filter_status_codes_exclude_only := excl;
                  filter_status_codes_empty := (length codes =? 0)%nat |}
               response = true
  <-> codes = []
      \/ xorb (int_in (Flask.status_code response) codes) excl = true.
Proof.
  unfold process_func. cbn.
  destruct codes as [|x codes]; cbn [length Nat.eqb].
  - split; [now left | reflexivity].
  - split; [now right |]. intros [H|H]; [discriminate | exact H].
Qed.


Example label_default :
  __label_status_codes__ (new (World := unit) (py "  "))
  = py "REQUEST_RESPONSE_PROCESSOR_STATUS_CODES".
Proof. reflexivity. Qed.

Example label_stripped :
  __label_status_codes_exclude_only_ (new (World := unit) (py " MAIL "))
  = py "MAIL_STATUS_CODES_EXCLUDE_ONLY".
Proof. reflexivity. Qed.

(** A tuple of codes is not a list: the filter is empty and every status
    code passes. *)
Example tuple_is_not_a_list :
  let self := new (World := unit) (py "") in
  let c := init_app_closure self
             {[ __label_status_codes__ self := VTuple [VInt 500; VInt 503] ]} in
  filter_status_codes c = [] /\ process_func c Samples.ok_response = true.
Proof. split; reflexivity. Qed.

(** ** Processor: dispatch *)

Section Dispatch.
Context {World : Type}.
Implicit Types (self : FlaskRequestResponseProcessor World)
               (f : Callback World) (c : Closure) (w : World).

(** The record of a hook run with a registered callback on a stamped
    request holds the call exactly when [process_func] is true. *)
Lemma calls_registered self c f request g start utcnow response w :
  __process_request_response_f__ self = Some f ->
  frr_start_time g = Some start ->
  calls (trace (snd (run (after_request c self request g utcnow response)
                         w)))
  = if process_func c response
    then [(f, {| request := request; response := response;
                 request_start_time := start;
                 request_end_time := utcnow |})]
    else [].
Proof.
  intros Hf Hg.
  rewrite (after_request_registered self c f request g start utcnow
             response w Hf Hg).
  destruct (process_func c response); [|reflexivity].
  destruct (f _ w) as [[u|e] w']; reflexivity.
Qed.

(** Without a start time on [g] the attribute access raises inside the
    [try]: the error is logged and no call is made. *)
Lemma after_request_unstamped self c f request g utcnow response w :
  __process_request_response_f__ self = Some f ->
  frr_start_time g = None ->
  run (after_request c self request g utcnow response) w
  = (Returned response,
     {| world := w;
        trace := if process_func c response
                 then [LoggedError error_message AttributeError]
                 else [] |}).
Proof.
  intros Hf Hg.
  unfold run, after_request, mbind, try_except_as, ret,
    getattr_frr_start_time, raise, logging_error.
  rewrite Hf, Hg. destruct (process_func c response); reflexivity.
Qed.

(** The hook returns the response it was given, whatever the processor,
    the request context and the callback are. *)
Lemma after_request_returns self c request g utcnow response w :
  fst (run (after_request c self request g utcnow response) w)
  = Returned response.
Proof.
  destruct (__process_request_response_f__ self) as [f|] eqn:Hf.
  - destruct (frr_start_time g) as [start|] eqn:Hg.
    + rewrite (after_request_registered self c f request g start utcnow
                 response w Hf Hg).
      destruct (process_func c response); [|reflexivity].
      destruct (f _ w) as [[u|e] w']; reflexivity.
    + rewrite (after_request_unstamped self c f request g utcnow
                 response w Hf Hg). reflexivity.
  - rewrite (after_request_unregistered self c request g utcnow
               response w Hf). reflexivity.
Qed.

(** Only the callback in the slot is ever called. *)
Lemma called_is_registered self c f request g utcnow response w h a :
  __process_request_response_f__ self = Some f ->
  In (Called h a)
     (trace (snd (run (after_request c self request g utcnow response) w)))
  -> h = f.
Proof.
  intros Hf.
  destruct (frr_start_time g) as [start|] eqn:Hg.
  - rewrite (after_request_registered self c f request g start utcnow
               response w Hf Hg).
    destruct (process_func c response); [|intros []].
    destruct (f _ w) as [[u|e] w']; cbn.
    + intros [H|[]]. now injection H.
    + intros [H|[H|[]]]; [now injection H | discriminate H].
  - rewrite (after_request_unstamped self c f request g utcnow
               response w Hf Hg). cbn.
    destruct (process_func c response); cbn.
    + intros [H|[]]. discriminate H.
    + intros [].
Qed.

End Dispatch.

(** C1.  With the filter read from a configuration that holds the list
    [codes] and the flag [excl], a callback [f] registered, and the request
    stamped by the before-hook, the after-hook calls [f] if and only if
    [codes] is empty or membership of the status code in [codes] differs
    from [excl]; it then calls it once, with the request, the response and
    the two instants.  With an empty list it is called for every status
    code and either value of the flag. *)
Theorem after_request_dispatch_iff :
  forall (World : Type) (prefix : pystr) (codes : list value) (excl : bool)
         (config0 : Config) (f : Callback World) (request : Flask.Request)
         (g0 : G) (start utcnow : Time) (response : Flask.Response)
         (w : World),
    let self0 := new prefix in
    let config :=
      <[__label_status_codes__ self0 := VList codes]>
        (<[__label_status_codes_exclude_only_ self0 := VBool excl]> config0) in
    let c := init_app_closure self0 config in
    let self := fst (process_request_response self0 f) in
    let args := {| request := request; response := response;
                   request_start_time := start;
                   request_end_time := utcnow |} in
    let tr := trace (snd (run (after_request c self request
                                 (before_request start g0) utcnow response)
                              w)) in
    let fires := codes = []
                 \/ xorb (int_in (Flask.status_code response) codes) excl
                    = true in
    ((exists a, In (Called f a) tr) <-> fires)
    /\ (calls tr = [(f, args)] <-> fires)
    /\ (calls tr = [] <-> ~ fires)
    /\ (codes = [] -> calls tr = [(f, args)]).
Proof.
  intros World prefix codes excl config0 f request g0 start utcnow response w
         self0 config c self args tr fires.
  assert (Hc : c = {| filter_status_codes := codes;
                      filter_status_codes_exclude_only := excl;
                      filter_status_codes_empty := (length codes =? 0)%nat |})
    by apply init_app_closure_configured.
  assert (Hfires : process_func c response = true <-> fires)
    by (rewrite Hc; apply process_func_spec).
  assert (Htr : run (after_request c self request (before_request start g0)
                       utcnow response) w
                = if process_func c response
                  then match f args w with
                       | (Returned _, w') =>
                         (Returned response,
                          {| world := w'; trace := [Called f args] |})
                       | (Raised e, w') =>
                         (Returned response,
                          {| world := w';
                             trace := [Called f args;
                                       LoggedError error_message e] |})
                       end
                  else (Returned response, {| world := w; trace := [] |}))
    by (apply after_request_registered; reflexivity).
  assert (Hcalls : calls tr = if process_func c response
                              then [(f, args)] else [])
    by (apply calls_registered; reflexivity).
  assert (Hin : (exists a, In (Called f a) tr)
                <-> process_func c response = true).
  { subst tr. rewrite Htr.
    destruct (process_func c response).
    - split; [reflexivity|]. intros _. exists args.
      destruct (f args w) as [[u|e] w']; left; reflexivity.
    - split; [|discriminate]. intros [a []]. }
  repeat split.
  - intros H. apply Hfires, Hin, H.
  - intros H. apply Hin, Hfires, H.
  - intros H. apply Hfires. rewrite Hcalls in H.
    destruct (process_func c response); [reflexivity | discriminate H].
  - intros H. apply Hfires in H. rewrite Hcalls, H. reflexivity.
  - intros H Hf. apply Hfires in Hf. rewrite Hcalls, Hf in H. discriminate H.
  - intros H. rewrite Hcalls.
    destruct (process_func c response) eqn:Hp; [|reflexivity].
    exfalso. apply H, Hfires. reflexivity.
  - intros H. rewrite Hcalls.
    assert (Hp : process_func c response = true) by (apply Hfires; now left).
    rewrite Hp. reflexivity.
Qed.

(** The two scenarios of the demo configuration [[500, 503]]. *)
Example dispatch_include_only :
  let c := {| filter_status_codes := [VInt 500; VInt 503];
              filter_status_codes_exclude_only := false;
              filter_status_codes_empty := false |} in
  process_func c Samples.unavailable_response = true
  /\ process_func c Samples.ok_response = false.
Proof. split; reflexivity. Qed.

Example dispatch_exclude_only :
  let c := {| filter_status_codes := [VInt 500; VInt 503];
              filter_status_codes_exclude_only := true;
              filter_status_codes_empty := false |} in
  process_func c Samples.unavailable_response = false
  /\ process_func c Samples.ok_response = true.
Proof. split; reflexivity. Qed.

(** ** Processor: a callback that raises *)

(** C3.  When the registered callback raises on the arguments the hook
    passes, whatever the class of the exception, the hook does not raise:
    it returns the response it was given.  When the filter let the call
    happen, the record of the run is the call followed by one logged
    error, and the world is the one the callback left. *)
Theorem callback_exception_contained :
  forall (World : Type) (c : Closure)
         (self : FlaskRequestResponseProcessor World) (f : Callback World)
         (request : Flask.Request) (g : G) (start utcnow : Time)
         (response : Flask.Response) (w w' : World) (e : exn),
    let args := {| request := request; response := response;
                   request_start_time := start;
                   request_end_time := utcnow |} in
    __process_request_response_f__ self = Some f ->
    frr_start_time g = Some start ->
    f args w = (Raised e, w') ->
    let r := run (after_request c self request g utcnow response) w in
    fst r = Returned response
    /\ (forall e', fst r <> Raised e')
    /\ (process_func c response = true ->
        snd r = {| world := w';
                   trace := [Called f args; LoggedError error_message e] |})
    /\ (process_func c response = false ->
        snd r = {| world := w; trace := [] |}).
Proof.
  intros World c self f request g start utcnow response w w' e args
         Hf Hg Hraise r.
  assert (Hr : fst r = Returned response) by apply after_request_returns.
  repeat split.
  - exact Hr.
  - intros e' He'. rewrite Hr in He'. discriminate He'.
  - intros Hp. subst r.
    rewrite (after_request_registered self c f request g start utcnow
               response w Hf Hg).
    fold args. rewrite Hp, Hraise. reflexivity.
  - intros Hp. subst r.
    rewrite (after_request_registered self c f request g start utcnow
               response w Hf Hg).
    rewrite Hp. reflexivity.
Qed.

Lemma callback_exception_contained_witness :
  let c := {| filter_status_codes := [VInt 500; VInt 503];
              filter_status_codes_exclude_only := false;
              filter_status_codes_empty := false |} in
  let self := fst (process_request_response (new (py "")) Samples.failing) in
  let g := before_request 10 {| frr_start_time := None |} in
  let args := {| request := Samples.json_object;
                 response := Samples.unavailable_response;
                 request_start_time := 10;
                 request_end_time := 25 |} in
  let r := run (after_request c self Samples.json_object g 25
                  Samples.unavailable_response) 0%nat in
  fst r = Returned Samples.unavailable_response
  /\ (forall e', fst r <> Raised e')
  /\ (process_func c Samples.unavailable_response = true ->
      snd r = {| world := 0%nat;
                 trace := [Called Samples.failing args;
                           LoggedError error_message (UserError 0)] |})
  /\ (process_func c Samples.unavailable_response = false ->
      snd r = {| world := 0%nat; trace := [] |}).
Proof.
  intros c self g args.
  apply (callback_exception_contained nat c self Samples.failing
           Samples.json_object g 10%Z 25%Z Samples.unavailable_response
           0%nat 0%nat (UserError 0)); reflexivity.
Defined.

(** ** Processor: the callback slot *)

(** C5.  After any sequence of registrations the slot holds the callback
    registered last; a hook run calls that callback and no other, once
    when the filter passes the status code and not at all otherwise.  A
    processor on which nothing was registered makes no call: the hook
    returns the response and leaves the world as it was. *)
Theorem single_slot_registration :
  forall (World : Type) (prefix : pystr) (fs : list (Callback World))
         (f : Callback World) (c : Closure) (request : Flask.Request)
         (g g0 : G) (start utcnow : Time) (response : Flask.Response)
         (w : World),
    let self := register_all (new prefix) (fs ++ [f]) in
    let args := {| request := request; response := response;
                   request_start_time := start;
                   request_end_time := utcnow |} in
    __process_request_response_f__ self = Some f
    /\ (forall h a,
          In (Called h a)
             (trace (snd (run (after_request c self request g utcnow
                                 response) w)))
          -> h = f)
    /\ calls (trace (snd (run (after_request c self request
                                 (before_request start g0) utcnow response)
                              w)))
       = (if process_func c response then [(f, args)] else [])
    /\ __process_request_response_f__ (new (World := World) prefix) = None
    /\ run (after_request c (new prefix) request g utcnow response) w
       = (Returned response, {| world := w; trace := [] |}).
Proof.
  intros World prefix fs f c request g g0 start utcnow response w self args.
  assert (Hf : __process_request_response_f__ self = Some f)
    by apply register_all_snoc.
  repeat split.
  - exact Hf.
  - intros h a. apply called_is_registered. exact Hf.
  - apply calls_registered; [exact Hf | reflexivity].
  - apply after_request_unregistered. reflexivity.
Qed.

Example second_registration_wins :
  let self := register_all (new (py ""))
                [Samples.failing; Samples.log_record] in
  let c := init_app_closure self ∅ in
  run (after_request c self Samples.json_object
         (before_request 10 {| frr_start_time := None |}) 25
         Samples.ok_response) 0%nat
  = (Returned Samples.ok_response,
     {| world := 1%nat;
        trace := [Called Samples.log_record
                    {| request := Samples.json_object;
                       response := Samples.ok_response;
                       request_start_time := 10;
                       request_end_time := 25 |}] |}).
Proof. reflexivity. Qed.

(** ** Processor: the decorator *)

(** C10.  The registration method stores the function and returns [None].
    Used as a decorator it leaves the decorated name bound to [None], not
    to the function, while the slot holds the function, which the hook
    calls when the filter passes the status code. *)
Theorem decorator_returns_None :
  forall (World : Type) (self0 : FlaskRequestResponseProcessor World)
         (globals : gmap string (object World)) (name : string)
         (f : Callback World) (c : Closure) (request : Flask.Request)
         (g0 : G) (start utcnow : Time) (response : Flask.Response)
         (w : World),
    let self := fst (decorated_def self0 globals name f) in
    let globals' := snd (decorated_def self0 globals name f) in
    let args := {| request := request; response := response;
                   request_start_time := start;
                   request_end_time := utcnow |} in
    snd (process_request_response self0 f) = ONone
    /\ globals' !! name = Some ONone
    /\ globals' !! name <> Some (OFunction f)
    /\ __process_request_response_f__ self = Some f
    /\ calls (trace (snd (run (after_request c self request
                                 (before_request start g0) utcnow response)
                              w)))
       = (if process_func c response then [(f, args)] else []).
Proof.
  intros World self0 globals name f c request g0 start utcnow response w
         self globals' args.
  subst self globals'. unfold decorated_def. cbn [process_request_response fst snd].
  repeat split.
  - apply lookup_insert_eq.
  - rewrite lookup_insert_eq. discriminate.
  - apply calls_registered; reflexivity.
Qed.

(** ** Formatter: the header mapping *)

Section Headers.
Import FlaskRequestFormatter.

Lemma step_pair d k v : headers_step d [k; v] = <[k := v]> d.
Proof. reflexivity. Qed.

Lemma step_other d header : length header <> 2%nat -> headers_step d header = d.
Proof.
  intros H. unfold headers_step.
  destruct (Nat.eqb_spec (length header) 2); [contradiction | reflexivity].
Qed.

Lemma step_cases d header :
  (exists k v, header = [k; v] /\ headers_step d header = <[k := v]> d)
  \/ (length header <> 2%nat /\ headers_step d header = d).
Proof.
  destruct header as [|k [|v [|x header]]];
    try (right; split; [cbn; lia | reflexivity]).
  left. exists k, v. split; reflexivity.
Qed.

Lemma fold_lookup_origin hs : forall d k v,
  foldl headers_step d hs !! k = Some v -> d !! k = Some v \/ In [k; v] hs.
Proof.
  induction hs as [|h hs IH]; intros d k v H; cbn in H.
  - now left.
  - destruct (IH _ _ _ H) as [Hd|Hin]; [|right; now right].
    destruct (step_cases d h) as [(k' & v' & -> & Hs)|[_ Hs]];
      rewrite Hs in Hd.
    + destruct (decide (k' = k)) as [->|Hne].
      * rewrite lookup_insert_eq in Hd. injection Hd as ->.
        right. now left.
      * rewrite lookup_insert_ne in Hd by exact Hne. now left.
    + now left.
Qed.

Lemma fold_lookup_untouched hs : forall d k,
  (forall v, ~ In [k; v] hs) -> foldl headers_step d hs !! k = d !! k.
Proof.
  induction hs as [|h hs IH]; intros d k Hno; cbn.
  - reflexivity.
  - rewrite IH by (intros v Hv; apply (Hno v); now right).
    destruct (step_cases d h) as [(k' & v' & -> & Hs)|[_ Hs]]; rewrite Hs.
    + apply lookup_insert_ne. intros ->. apply (Hno v'). now left.
    + reflexivity.
Qed.

Lemma headers_dict_fold hs : headers_dict hs = foldl headers_step ∅ hs.
Proof. reflexivity. Qed.

Lemma headers_dict_origin hs k v :
  headers_dict hs !! k = Some v -> In [k; v] hs.
Proof.
  rewrite headers_dict_fold. intros H.
  destruct (fold_lookup_origin _ _ _ _ H) as [He|Hin]; [|exact Hin].
  rewrite lookup_empty in He. discriminate He.
Qed.

Lemma headers_dict_drop l1 h l2 :
  length h <> 2%nat -> headers_dict (l1 ++ h :: l2) = headers_dict (l1 ++ l2).
Proof.
  intros H.
  rewrite (headers_dict_fold (l1 ++ h :: l2)), (headers_dict_fold (l1 ++ l2)).
  rewrite !foldl_app. cbn [foldl].
  rewrite step_other by exact H. reflexivity.
Qed.

Lemma headers_dict_last l1 k v l2 :
  (forall v', ~ In [k; v'] l2) ->
  headers_dict (l1 ++ [k; v] :: l2) !! k = Some v.
Proof.
  intros H. rewrite headers_dict_fold, foldl_app. cbn [foldl].
  rewrite fold_lookup_untouched by exact H.
  rewrite step_pair. apply lookup_insert_eq.
Qed.

End Headers.

(** C8.  The mapping made from the request's list of header tuples holds
    an entry only for a tuple of exactly two elements; a tuple of any
    other length leaves the mapping as if it were not in the list; and the
    value found under a name is the second element of the last
    two-element tuple with that name, so that a later pair overwrites an
    earlier one. *)
Theorem headers_two_element_last_wins :
  (forall r : Flask.Request,
      FlaskRequestFormatter.headers r
      = FlaskRequestFormatter.headers_dict (Flask.headers_to_wsgi_list r))
  /\ (forall (hs : list (list pystr)) (k v : pystr),
         FlaskRequestFormatter.headers_dict hs !! k = Some v -> In [k; v] hs)
  /\ (forall (l1 l2 : list (list pystr)) (h : list pystr),
         length h <> 2%nat ->
         FlaskRequestFormatter.headers_dict (l1 ++ h :: l2)
         = FlaskRequestFormatter.headers_dict (l1 ++ l2))
  /\ (forall (l1 l2 : list (list pystr)) (k v : pystr),
         (forall v', ~ In [k; v'] l2) ->
         FlaskRequestFormatter.headers_dict (l1 ++ [k; v] :: l2) !! k
         = Some v)
  /\ (forall (l1 l2 l3 : list (list pystr)) (k v1 v2 : pystr),
         (forall v', ~ In [k; v'] l3) ->
         FlaskRequestFormatter.headers_dict
           (l1 ++ [k; v1] :: l2 ++ [k; v2] :: l3) !! k
         = Some v2).
Proof.
  split; [reflexivity|].
  split; [exact headers_dict_origin|].
  split; [intros l1 l2 h; apply headers_dict_drop|].
  split; [intros l1 l2 k v; apply headers_dict_last|].
  intros l1 l2 l3 k v1 v2 H.
  replace (l1 ++ [k; v1] :: l2 ++ [k; v2] :: l3)
    with ((l1 ++ [k; v1] :: l2) ++ [k; v2] :: l3)
    by (rewrite <- app_assoc; reflexivity).
  apply headers_dict_last. exact H.
Qed.

Example headers_sample :
  let d := FlaskRequestFormatter.headers_dict
             [[py "Accept"; py "text/html"];
              [py "Host"];
              [py "Accept"; py "application/json"];
              [py "X-Trace"; py "1"; py "2"]] in
  d !! py "Accept" = Some (py "application/json")
  /\ d !! py "Host" = None
  /\ d !! py "X-Trace" = None.
Proof. repeat split; reflexivity. Qed.

(** ** Formatter: the compressed text *)

Section Induction.
Variable P : value -> Prop.
Hypothesis HNone : P VNone.
Hypothesis HBool : forall b, P (VBool b).
Hypothesis HInt : forall z, P (VInt z).
Hypothesis HStr : forall s, P (VStr s).
Hypothesis HList : forall l, Forall P l -> P (VList l).
Hypothesis HTuple : forall l, Forall P l -> P (VTuple l).
Hypothesis HDict :
  forall items, Forall (fun kv => P (snd kv)) items -> P (VDict items).

(** Induction on values, with the hypothesis for every element of a list
    and every value of a dictionary. *)
Lemma value_nested_ind : forall o, P o.
Proof.
  fix IH 1. intros [ |b|z|s|l|l|items].
  - exact HNone.
  - apply HBool.
  - apply HInt.
  - apply HStr.
  - apply HList. induction l as [|x l IHl]; constructor; [apply IH | exact IHl].
  - apply HTuple. induction l as [|x l IHl]; constructor; [apply IH | exact IHl].
  - apply HDict.
    induction items as [|[k x] items IHl]; constructor; [apply IH | exact IHl].
Qed.

End Induction.









Lemma py_String (a : ascii) (s : string) :
  py (String a s) = N_of_ascii a :: py s.
Proof. reflexivity. Qed.






(** The handler around [json.dumps] names [JSONDecodeError]: it gives the
    empty text for that class and lets any other exception through. *)
Example compressed_str_handler :
  try_except (Raised JSONDecodeError) JSONDecodeError (Returned (py ""))
  = Returned (py "")
  /\ try_except (Raised TypeError) JSONDecodeError (Returned (py ""))
     = Raised TypeError.
Proof. split; reflexivity. Qed.

(** With the default separators of [json.dumps] the same value is written
    with a space after each separator. *)
Example default_separators_keep_spaces :
  let o := VDict [(py "a", VInt 1); (py "b", VStr (py "x"))] in
  bytes_decode (Flask.get_data Samples.json_a1_bx)
  = json_dumps o (py ", ", py ": ")
  /\ count_space (encode (py ", ") (py ": ") o) = 3%nat.
Proof. split; reflexivity. Qed.

Example escapes_of_encode_str :
  encode_str [0x20AC; 0x1F600; 10; 32; 127]
  = py (Samples.dq +:+ "\u20ac\ud83d\ude00\n \u007f" +:+ Samples.dq).
Proof. reflexivity. Qed.

(** * Further properties *)

(** ** The header mapping as a function of the list *)

Section HeaderMapping.
Import FlaskRequestFormatter.

Lemma fold_headers_union (hs : list (list pystr)) : forall d,
  foldl headers_step d hs = headers_dict hs ∪ d.
Proof.
  unfold headers_dict.
  induction hs as [|h hs IH]; intros d; cbn [foldl].
  - now rewrite (left_id_L ∅ (∪)).
  - rewrite (IH (headers_step d h)), (IH (headers_step ∅ h)).
    rewrite <- (assoc_L (∪)). f_equal.
    destruct (step_cases d h) as [(k & v & -> & Hs)|[Hlen Hs]].
    + rewrite !step_pair, <- insert_union_l. now rewrite (left_id_L ∅ (∪)).
    + rewrite Hs, (step_other ∅ h Hlen). now rewrite (left_id_L ∅ (∪)).
Qed.

Lemma fold_headers_keeps_key (hs : list (list pystr)) : forall d k,
  is_Some (d !! k) -> is_Some (foldl headers_step d hs !! k).
Proof.
  induction hs as [|h hs IH]; intros d k Hk; cbn [foldl]; [exact Hk|].
  apply IH.
  destruct (step_cases d h) as [(k' & v' & -> & Hs)|[_ Hs]]; rewrite Hs.
  - destruct (decide (k' = k)) as [->|Hne].
    + rewrite lookup_insert_eq. eauto.
    + now rewrite lookup_insert_ne.
  - exact Hk.
Qed.

Lemma headers_dict_snoc (hs : list (list pystr)) (h : list pystr) :
  headers_dict (hs ++ [h]) = headers_step (headers_dict hs) h.
Proof. unfold headers_dict. now rewrite foldl_app. Qed.

(** The pair that gave a key its value is the last pair with that key. *)
Lemma headers_dict_last_pair (hs : list (list pystr)) : forall k v,
  headers_dict hs !! k = Some v ->
  exists l1 l2, hs = l1 ++ [k; v] :: l2 /\ forall v', ~ In [k; v'] l2.
Proof.
  induction hs as [|h hs IH] using rev_ind; intros k v H.
  - unfold headers_dict in H. cbn [foldl] in H.
    rewrite lookup_empty in H. discriminate H.
  - rewrite headers_dict_snoc in H.
    destruct (step_cases (headers_dict hs) h)
      as [(k' & v' & -> & Hs)|[Hlen Hs]]; rewrite Hs in H.
    + destruct (decide (k' = k)) as [->|Hne].
      * rewrite lookup_insert_eq in H. injection H as ->.
        exists hs, []. split; [reflexivity | intros v' []].
      * rewrite lookup_insert_ne in H by exact Hne.
        destruct (IH _ _ H) as (l1 & l2 & -> & Hno).
        exists l1, (l2 ++ [[k'; v']]). split.
        -- now rewrite <- app_assoc.
        -- intros v'' Hin. apply in_app_or in Hin as [Hin|[Heq|[]]].
           ++ exact (Hno _ Hin).
           ++ apply Hne. now injection Heq.
    + destruct (IH _ _ H) as (l1 & l2 & -> & Hno).
      exists l1, (l2 ++ [h]). split.
      * now rewrite <- app_assoc.
      * intros v' Hin. apply in_app_or in Hin as [Hin|[Heq|[]]].
        -- exact (Hno _ Hin).
        -- apply Hlen. now rewrite Heq.
Qed.

End HeaderMapping.

(** X1.  The mapping gives [v] for [k] exactly when the list of header
    tuples splits around a pair [(k, v)] after which no pair is named
    [k]. *)
Theorem headers_lookup_is_last_pair :
  forall (hs : list (list pystr)) (k v : pystr),
    FlaskRequestFormatter.headers_dict hs !! k = Some v
    <-> exists l1 l2,
          hs = l1 ++ [k; v] :: l2 /\ forall v', ~ In [k; v'] l2.
Proof.
  intros hs k v. split.
  - apply headers_dict_last_pair.
  - intros (l1 & l2 & -> & Hno). now apply headers_dict_last.
Qed.

(** X2.  A name is a key of the mapping exactly when some two-element
    tuple of the list carries it: no such header is lost, and nothing
    else becomes a key. *)
Theorem headers_keys_are_pair_names :
  forall (hs : list (list pystr)) (k : pystr),
    is_Some (FlaskRequestFormatter.headers_dict hs !! k)
    <-> exists v, In [k; v] hs.
Proof.
  intros hs k. split.
  - intros [v Hv]. exists v. now apply headers_dict_origin.
  - intros [v Hin]. apply in_split in Hin as (l1 & l2 & ->).
    unfold FlaskRequestFormatter.headers_dict.
    rewrite foldl_app. cbn [foldl]. apply fold_headers_keeps_key.
    rewrite step_pair, lookup_insert_eq. eauto.
Qed.

(** X3.  The mapping of a concatenated list is the mapping of the second
    part, completed by the entries of the first part for the keys the
    second part does not have. *)
Theorem headers_dict_app :
  forall hs1 hs2 : list (list pystr),
    FlaskRequestFormatter.headers_dict (hs1 ++ hs2)
    = FlaskRequestFormatter.headers_dict hs2
      ∪ FlaskRequestFormatter.headers_dict hs1.
Proof.
  intros hs1 hs2. unfold FlaskRequestFormatter.headers_dict at 1.
  rewrite foldl_app. apply fold_headers_union.
Qed.

(** ** The hook when nothing is to be done, and when the request was not
    stamped *)

(** X4.  When the filter rejects the status code, or no callback is
    registered, the hook makes no call, writes no log line and leaves the
    world as it found it, whatever the request context holds. *)
Theorem after_request_inert :
  forall (World : Type) (c : Closure)
         (self : FlaskRequestResponseProcessor World)
         (request : Flask.Request) (g : G) (utcnow : Time)
         (response : Flask.Response) (w : World),
    process_func c response = false
    \/ __process_request_response_f__ self = None ->
    run (after_request c self request g utcnow response) w
    = (Returned response, {| world := w; trace := [] |}).
Proof.
  intros World c self request g utcnow response w [Hp|Hf].
  - unfold run, after_request, mbind, ret. rewrite Hp. reflexivity.
  - now apply after_request_unregistered.
Qed.

Lemma after_request_inert_witness :
  run (after_request
         {| filter_status_codes := [VInt 500; VInt 503];
            filter_status_codes_exclude_only := false;
            filter_status_codes_empty := false |}
         (fst (process_request_response (new (py "")) Samples.log_record))
         Samples.json_object {| frr_start_time := None |} 25
         Samples.ok_response) 7%nat
  = (Returned Samples.ok_response, {| world := 7%nat; trace := [] |}).
Proof.
  apply (after_request_inert nat). left. reflexivity.
Defined.

(** X5.  When the request context carries no start time (the before-hook
    did not run for this request), a registered callback is not called:
    reading the start time raises inside the [try], so the hook logs an
    [AttributeError] when the filter passes the status code, and in both
    cases returns the response and leaves the world as it was. *)
Theorem unstamped_request_skips_callback :
  forall (World : Type) (c : Closure)
         (self : FlaskRequestResponseProcessor World) (f : Callback World)
         (request : Flask.Request) (g : G) (utcnow : Time)
         (response : Flask.Response) (w : World),
    __process_request_response_f__ self = Some f ->
    frr_start_time g = None ->
    let r := run (after_request c self request g utcnow response) w in
    fst r = Returned response
    /\ world (snd r) = w
    /\ calls (trace (snd r)) = []
    /\ trace (snd r)
       = (if process_func c response
          then [LoggedError error_message AttributeError] else []).
Proof.
  intros World c self f request g utcnow response w Hf Hg r. subst r.
  rewrite (after_request_unstamped self c f request g utcnow response w
             Hf Hg).
  cbn [fst snd world trace].
  repeat split. destruct (process_func c response); reflexivity.
Qed.

Lemma unstamped_request_skips_callback_witness :
  let c := {| filter_status_codes := [];
              filter_status_codes_exclude_only := false;
              filter_status_codes_empty := true |} in
  let self := fst (process_request_response (new (py ""))
                     Samples.log_record) in
  let r := run (after_request c self Samples.json_object
                  {| frr_start_time := None |} 25 Samples.ok_response)
               7%nat in
  fst r = Returned Samples.ok_response
  /\ world (snd r) = 7%nat
  /\ calls (trace (snd r)) = []
  /\ trace (snd r)
     = (if process_func c Samples.ok_response
        then [LoggedError error_message AttributeError] else []).
Proof.
  intros c self.
  apply (unstamped_request_skips_callback nat c self Samples.log_record);
    reflexivity.
Defined.

(** X6.  A callback that returns is called once with the request, the
    response, the start time found on the request context and the hook's
    own clock reading; the world after the hook is the one the callback
    left, and nothing is logged. *)
Theorem returning_callback_runs_once :
  forall (World : Type) (c : Closure)
         (self : FlaskRequestResponseProcessor World) (f : Callback World)
         (request : Flask.Request) (g : G) (start utcnow : Time)
         (response : Flask.Response) (w w' : World),
    let args := {| request := request; response := response;
                   request_start_time := start;
                   request_end_time := utcnow |} in
    __process_request_response_f__ self = Some f ->
    frr_start_time g = Some start ->
    process_func c response = true ->
    f args w = (Returned tt, w') ->
    run (after_request c self request g utcnow response) w
    = (Returned response, {| world := w'; trace := [Called f args] |}).
Proof.
  intros World c self f request g start utcnow response w w' args
         Hf Hg Hp Hret.
  rewrite (after_request_registered self c f request g start utcnow
             response w Hf Hg).
  fold args. rewrite Hp, Hret. reflexivity.
Qed.

Lemma returning_callback_runs_once_witness :
  let c := {| filter_status_codes := [VInt 500; VInt 503];
              filter_status_codes_exclude_only := false;
              filter_status_codes_empty := false |} in
  let self := fst (process_request_response (new (py ""))
                     Samples.log_record) in
  run (after_request c self Samples.json_object
         (before_request 10 {| frr_start_time := None |}) 25
         Samples.unavailable_response) 7%nat
  = (Returned Samples.unavailable_response,
     {| world := 8%nat;
        trace := [Called Samples.log_record
                    {| request := Samples.json_object;
                       response := Samples.unavailable_response;
                       request_start_time := 10;
                       request_end_time := 25 |}] |}).
Proof.
  intros c self.
  apply (returning_callback_runs_once nat c self Samples.log_record
           Samples.json_object
           (before_request 10 {| frr_start_time := None |}) 10%Z 25%Z
           Samples.unavailable_response 7%nat 8%nat); reflexivity.
Defined.

(** ** The filter as a function of the configured list *)

Section Filter.
Context {World : Type}.
Implicit Types (self : FlaskRequestResponseProcessor World).

Lemma process_func_init self (config : Config) (response : Flask.Response) :
  let c := init_app_closure self config in
  process_func c response
  = match filter_status_codes c with
    | [] => true
    | _ :: _ =>
      xorb (int_in (Flask.status_code response) (filter_status_codes c))
           (filter_status_codes_exclude_only c)
    end.
Proof.
  intros c. unfold process_func.
  change (filter_status_codes_empty c)
    with (length (filter_status_codes c) =? 0)%nat.
  destruct (filter_status_codes c); reflexivity.
Qed.

Lemma int_in_true (x : Z) (l : list value) :
  int_in x l = true <-> exists v, In v l /\ int_eq x v = true.
Proof. unfold int_in. apply existsb_exists. Qed.

Lemma int_in_same_entries (x : Z) (l1 l2 : list value) :
  (forall v, In v l1 <-> In v l2) -> int_in x l1 = int_in x l2.
Proof.
  intros H. apply eq_true_iff_eq. rewrite !int_in_true.
  split; intros (v & Hin & Hv); exists v; (split; [now apply H | exact Hv]).
Qed.


Lemma closure_with_flag (prefix : pystr) (config : Config) (b : bool) :
  let self := new (World := World) prefix in
  let c := init_app_closure self
             (<[__label_status_codes_exclude_only_ self := VBool b]> config) in
  filter_status_codes c
  = filter_status_codes (init_app_closure self config)
  /\ filter_status_codes_exclude_only c = b.
Proof.
  intros self c. subst c. unfold init_app_closure, config_get.
  cbn [filter_status_codes filter_status_codes_exclude_only].
  rewrite lookup_insert_ne by (intros H; symmetry in H;
                               exact (labels_differ prefix H)).
  rewrite lookup_insert_eq. split; reflexivity.
Qed.

Lemma closure_with_codes (prefix : pystr) (config : Config)
    (codes : list value) :
  let self := new (World := World) prefix in
  let c := init_app_closure self
             (<[__label_status_codes__ self := VList codes]> config) in
  filter_status_codes c = codes
  /\ filter_status_codes_exclude_only c
     = filter_status_codes_exclude_only (init_app_closure self config).
Proof.
  intros self c. subst c. unfold init_app_closure, config_get.
  cbn [filter_status_codes filter_status_codes_exclude_only].
  rewrite lookup_insert_eq.
  rewrite lookup_insert_ne by apply labels_differ.
  split; reflexivity.
Qed.

End Filter.

(** X7.  On a configured list that is not empty, switching the
    exclude-only flag on turns every decision of the filter into its
    opposite: the callback runs for exactly the status codes for which it
    did not run with the flag off. *)
Theorem exclude_only_complements :
  forall (World : Type) (prefix : pystr) (config : Config)
         (response : Flask.Response),
    let self := new (World := World) prefix in
    let closure b :=
      init_app_closure self
        (<[__label_status_codes_exclude_only_ self := VBool b]> config) in
    filter_status_codes (init_app_closure self config) <> [] ->
    process_func (closure true) response
    = negb (process_func (closure false) response).
Proof.
  intros World prefix config response self closure Hne. subst closure.
  cbn beta. rewrite !process_func_init.
  destruct (closure_with_flag (World := World) prefix config true)
    as [Hc1 He1].
  destruct (closure_with_flag (World := World) prefix config false)
    as [Hc0 He0].
  fold self in Hc1, He1, Hc0, He0. rewrite Hc1, He1, Hc0, He0.
  destruct (filter_status_codes (init_app_closure self config));
    [contradiction|].
  now rewrite xorb_true_r, xorb_false_r.
Qed.

Lemma exclude_only_complements_witness :
  let self := new (World := unit) (py "") in
  let closure b :=
    init_app_closure self
      (<[__label_status_codes_exclude_only_ self := VBool b]>
         {[ __label_status_codes__ self := VList [VInt 500; VInt 503] ]}) in
  process_func (closure true) Samples.ok_response
  = negb (process_func (closure false) Samples.ok_response).
Proof.
  apply (exclude_only_complements unit (py "")
           {[ py "REQUEST_RESPONSE_PROCESSOR_STATUS_CODES"
              := VList [VInt 500; VInt 503] ]}).
  vm_compute. discriminate.
Defined.

(** X8.  The decision depends only on which values occur in the
    configured list: two lists with the same entries, in any order and any
    multiplicity, give the same filter. *)
Theorem filter_ignores_order_and_repeats :
  forall (World : Type) (prefix : pystr) (config : Config)
         (codes1 codes2 : list value) (response : Flask.Response),
    let self := new (World := World) prefix in
    let closure codes :=
      init_app_closure self
        (<[__label_status_codes__ self := VList codes]> config) in
    (forall v, In v codes1 <-> In v codes2) ->
    process_func (closure codes1) response
    = process_func (closure codes2) response.
Proof.
  intros World prefix config codes1 codes2 response self closure Hsame.
  subst closure. cbn beta. rewrite !process_func_init.
  destruct (closure_with_codes (World := World) prefix config codes1)
    as [Hc1 He1].
  destruct (closure_with_codes (World := World) prefix config codes2)
    as [Hc2 He2].
  fold self in Hc1, He1, Hc2, He2. rewrite Hc1, He1, Hc2, He2.
  rewrite (int_in_same_entries _ codes1 codes2 Hsame).
  destruct codes1 as [|a l1], codes2 as [|b l2]; try reflexivity.
  - exfalso. apply (proj2 (Hsame b)). now left.
  - exfalso. apply (proj1 (Hsame a)). now left.
Qed.

Lemma filter_ignores_order_and_repeats_witness :
  let self := new (World := unit) (py "") in
  let closure codes :=
    init_app_closure self
      (<[__label_status_codes__ self := VList codes]> ∅) in
  process_func (closure [VInt 500; VInt 503]) Samples.unavailable_response
  = process_func (closure [VInt 503; VInt 500; VInt 503])
                 Samples.unavailable_response.
Proof.
  apply (filter_ignores_order_and_repeats unit (py "") ∅
           [VInt 500; VInt 503] [VInt 503; VInt 500; VInt 503]).
  intros v. cbn. tauto.
Defined.



(** ** The prefix of the configuration labels *)

Lemma lstrip_all_space (s : pystr) :
  Forall (fun c => isspace c = true) s -> lstrip s = [].
Proof.
  induction 1 as [|c s Hc _ IH]; [reflexivity|].
  cbn [lstrip]. rewrite Hc. exact IH.
Qed.

Lemma lstrip_app_space (l s : pystr) :
  Forall (fun c => isspace c = true) l -> lstrip (l ++ s) = lstrip s.
Proof.
  induction 1 as [|c l Hc _ IH]; [reflexivity|].
  cbn [app lstrip]. rewrite Hc. exact IH.
Qed.

Lemma lstrip_head (s : pystr) :
  lstrip s = []
  \/ exists c t, lstrip s = c :: t /\ isspace c = false.
Proof.
  induction s as [|c s IH]; [now left|].
  cbn [lstrip]. destruct (isspace c) eqn:Hc; [exact IH|].
  right. exists c, s. now split.
Qed.

Lemma lstrip_app (s t : pystr) :
  lstrip (s ++ t)
  = match lstrip s with
    | [] => lstrip t
    | _ :: _ => lstrip s ++ t
    end.
Proof.
  induction s as [|c s IH]; cbn [app lstrip].
  - destruct (lstrip t); [reflexivity | now cbn].
  - destruct (isspace c); [exact IH | reflexivity].
Qed.

Lemma strip_padding (l s r : pystr) :
  Forall (fun c => isspace c = true) l ->
  Forall (fun c => isspace c = true) r ->
  strip (l ++ s ++ r) = strip s.
Proof.
  intros Hl Hr. unfold strip.
  rewrite (lstrip_app_space l (s ++ r) Hl), (lstrip_app s r).
  destruct (lstrip_head s) as [He|(c & t & He & Hc)]; rewrite He.
  - now rewrite (lstrip_all_space r Hr).
  - rewrite rev_app_distr.
    rewrite lstrip_app_space; [reflexivity|].
    apply Forall_rev. exact Hr.
Qed.

(** X10.  White space around the prefix given to the constructor does not
    count: a padded prefix gives the processor of the bare prefix, and a
    prefix of white space only gives the labels of the default prefix,
    [REQUEST_RESPONSE_PROCESSOR]. *)
Theorem prefix_padding_ignored :
  forall (World : Type) (l s r : pystr),
    Forall (fun c => isspace c = true) l ->
    Forall (fun c => isspace c = true) r ->
    new (World := World) (l ++ s ++ r) = new s
    /\ __label_status_codes__ (new (World := World) (l ++ r))
       = py "REQUEST_RESPONSE_PROCESSOR_STATUS_CODES"
    /\ __label_status_codes_exclude_only_ (new (World := World) (l ++ r))
       = py "REQUEST_RESPONSE_PROCESSOR_STATUS_CODES_EXCLUDE_ONLY".
Proof.
  intros World l s r Hl Hr.
  assert (Hs : strip (l ++ s ++ r) = strip s) by now apply strip_padding.
  assert (Hb : strip (l ++ r) = []).
  { change (l ++ r) with (l ++ [] ++ r).
    now rewrite (strip_padding l [] r Hl Hr). }
  repeat split.
  - unfold new. now rewrite Hs.
  - unfold new. now rewrite Hb.
  - unfold new. now rewrite Hb.
Qed.

Lemma prefix_padding_ignored_witness :
  new (World := unit) (py "  " ++ py "MAIL" ++ [9; 10]) = new (py "MAIL")
  /\ __label_status_codes__ (new (World := unit) (py "  " ++ [9; 10]))
     = py "REQUEST_RESPONSE_PROCESSOR_STATUS_CODES"
  /\ __label_status_codes_exclude_only_
       (new (World := unit) (py "  " ++ [9; 10]))
     = py "REQUEST_RESPONSE_PROCESSOR_STATUS_CODES_EXCLUDE_ONLY".
Proof.
  apply (prefix_padding_ignored unit (py "  ") (py "MAIL") [9; 10]);
    repeat constructor.
Defined.

(** ** The compressed text: characters, length, emptiness *)

Lemma printable_app (a b : pystr) :
  printable a -> printable b -> printable (a ++ b).
Proof. intros Ha Hb. apply Forall_app. now split. Qed.

Lemma hex_digit_printable (n : N) : n < 16 -> 32 <= hex_digit n <= 126.
Proof. intros H. unfold hex_digit. destruct (N.ltb_spec n 10); lia. Qed.

Lemma printable_u_escape (n : N) : printable (u_escape n).
Proof.
  unfold u_escape, printable.
  repeat (constructor;
          [first [lia | apply hex_digit_printable, N.mod_lt; lia]|]).
  constructor.
Qed.

Lemma printable_escape_char (c : N) : printable (escape_char c).
Proof.
  unfold escape_char.
  repeat match goal with
         | |- printable (if ?x =? ?y then _ else _) =>
           destruct (x =? y);
           [unfold printable; repeat constructor; lia|]
         end.
  destruct (in_range 32 126 c) eqn:Hr.
  - unfold in_range in Hr. apply andb_prop in Hr as [H1 H2].
    apply N.leb_le in H1, H2. repeat constructor; lia.
  - repeat match goal with
           | |- printable (if ?x =? ?y then _ else _) =>
             destruct (x =? y);
             [unfold printable; repeat constructor; lia|]
           end.
    destruct (c <? 65536).
    + apply printable_u_escape.
    + apply printable_app; apply printable_u_escape.
Qed.

Lemma printable_encode_str (s : pystr) : printable (encode_str s).
Proof.
  unfold encode_str. apply printable_app; [repeat constructor; lia|].
  apply printable_app; [|repeat constructor; lia].
  induction s as [|c s IH]; [constructor|].
  cbn [flat_map]. apply printable_app; [apply printable_escape_char | exact IH].
Qed.

Lemma printable_digits (d : Decimal.uint) :
  printable (py (NilEmpty.string_of_uint d)).
Proof.
  induction d; cbn [NilEmpty.string_of_uint]; [constructor| ..];
    rewrite py_String; (constructor; [cbn; lia | exact IHd]).
Qed.

Lemma printable_int_repr (z : Z) : printable (int_repr z).
Proof.
  unfold int_repr.
  assert (Hu : forall d, printable (py (NilZero.string_of_uint d))).
  { intros d. unfold NilZero.string_of_uint.
    destruct d; try apply printable_digits. repeat constructor; cbn; lia. }
  destruct (Z.to_int z) as [d|d]; cbn [NilZero.string_of_int].
  - apply Hu.
  - rewrite py_String. constructor; [cbn; lia | apply Hu].
Qed.

Lemma printable_join (sep : pystr) (parts : list pystr) :
  printable sep -> Forall printable parts -> printable (join sep parts).
Proof.
  intros Hsep Hparts. induction Hparts as [|p parts Hp Hparts IH].
  - constructor.
  - destruct parts as [|q parts]; [exact Hp|].
    change (join sep (p :: q :: parts))
      with (p ++ sep ++ join sep (q :: parts)).
    apply printable_app; [exact Hp|]. apply printable_app; assumption.
Qed.

Lemma printable_encode (item_separator key_separator : pystr) :
  printable item_separator -> printable key_separator ->
  forall o, printable (encode item_separator key_separator o).
Proof.
  intros Hi Hk.
  assert (Hseq : forall l,
             Forall (fun o => printable (encode item_separator
                                           key_separator o)) l ->
             printable ([91] ++ join item_separator
                                  (List.map (encode item_separator
                                               key_separator) l)
                             ++ [93])).
  { intros l Hl. apply printable_app; [repeat constructor; lia|].
    apply printable_app; [|repeat constructor; lia].
    apply printable_join; [exact Hi|].
    induction Hl; constructor; assumption. }
  induction o as [ |[]| | |l IHl|l IHl|items IHitems] using value_nested_ind.
  - repeat constructor; cbn; lia.
  - repeat constructor; cbn; lia.
  - repeat constructor; cbn; lia.
  - apply printable_int_repr.
  - apply printable_encode_str.
  - apply Hseq, IHl.
  - apply Hseq, IHl.
  - cbn [encode]. apply printable_app; [repeat constructor; lia|].
    apply printable_app; [|repeat constructor; lia].
    apply printable_join; [exact Hi|].
    induction IHitems as [|kv items Hkv _ IH]; constructor; [|exact IH].
    apply printable_app; [apply printable_encode_str|].
    apply printable_app; [exact Hk | exact Hkv].
Qed.

Lemma response_json_not_caught_later
    (json_loads : pystr -> outcome value) (r : Flask.Response) (e : exn) :
  FlaskResponseFormatter.response_json json_loads r = Raised e ->
  issubclass e JSONDecodeError = false.
Proof.
  unfold FlaskResponseFormatter.response_json, try_except.
  destruct (bind _ json_loads) as [o|e']; [discriminate|].
  destruct (issubclass e' JSONDecodeError) eqn:He'; [discriminate|].
  intros H. injection H as <-. exact He'.
Qed.

(** What [response_json_compressed_str] evaluates to, by the outcome of
    [response_json]. *)
Lemma response_compressed_cases
    (json_loads : pystr -> outcome value) (r : Flask.Response) :
  (exists o,
      FlaskResponseFormatter.response_json json_loads r = Returned o
      /\ FlaskResponseFormatter.response_json_compressed_str json_loads r
         = Returned (encode (py ",") (py ":") o))
  \/ (exists e,
         FlaskResponseFormatter.response_json json_loads r = Raised e
         /\ FlaskResponseFormatter.response_json_compressed_str json_loads r
            = Raised e).
Proof.
  unfold FlaskResponseFormatter.response_json_compressed_str.
  destruct (FlaskResponseFormatter.response_json json_loads r)
    as [o|e] eqn:Hj.
  - left. exists o. split; reflexivity.
  - right. exists e. split; [reflexivity|].
    cbn [bind try_except].
    now rewrite (response_json_not_caught_later json_loads r e Hj).
Qed.

(** X11.  The compressed text of a payload, and of a response body, is
    made of printable ASCII characters only (codes 32 to 126): characters
    outside ASCII and control characters, line breaks among them, are
    written as escapes, so the text is a single line. *)
Theorem compressed_str_printable_ascii :
  (forall r : Flask.Request,
      exists s,
        FlaskRequestFormatter.payload_json_compressed_str r = Returned s
        /\ Forall (fun c => 32 <= c <= 126) s)
  /\ (forall (json_loads : pystr -> outcome value) (r : Flask.Response)
             (s : pystr),
         FlaskResponseFormatter.response_json_compressed_str json_loads r
         = Returned s ->
         Forall (fun c => 32 <= c <= 126) s).
Proof.
  assert (Hsep : printable (py ",") /\ printable (py ":"))
    by (split; repeat constructor; cbn; lia).
  destruct Hsep as [Hi Hk]. split.
  - intros r. eexists. split; [reflexivity|].
    exact (printable_encode _ _ Hi Hk _).
  - intros json_loads r s Hs.
    destruct (response_compressed_cases json_loads r)
      as [(o & _ & Ho)|(e & _ & He)]; rewrite Hs in *.
    + injection Ho as ->. exact (printable_encode _ _ Hi Hk _).
    + discriminate He.
Qed.

Lemma length_join_le (sep1 sep2 : pystr) (ps1 ps2 : list pystr) :
  (length sep1 <= length sep2)%nat ->
  Forall2 (fun a b => (length a <= length b)%nat) ps1 ps2 ->
  (length (join sep1 ps1) <= length (join sep2 ps2))%nat.
Proof.
  intros Hsep H. induction H as [|a b ps1 ps2 Hab Hrest IH].
  - reflexivity.
  - destruct Hrest as [|a' b' ps1 ps2 Hab' Hrest].
    + exact Hab.
    + change (join sep1 (a :: a' :: ps1))
        with (a ++ sep1 ++ join sep1 (a' :: ps1)).
      change (join sep2 (b :: b' :: ps2))
        with (b ++ sep2 ++ join sep2 (b' :: ps2)).
      rewrite !List.length_app. lia.
Qed.

Lemma length_encode_le (i1 k1 i2 k2 : pystr) :
  (length i1 <= length i2)%nat -> (length k1 <= length k2)%nat ->
  forall o, (length (encode i1 k1 o) <= length (encode i2 k2 o))%nat.
Proof.
  intros Hi Hk.
  assert (Hseq : forall l,
             Forall (fun o => (length (encode i1 k1 o)
                               <= length (encode i2 k2 o))%nat) l ->
             le (length ([91] ++ join i1 (List.map (encode i1 k1) l) ++ [93]))
                (length ([91] ++ join i2 (List.map (encode i2 k2) l)
                           ++ [93]))).
  { intros l Hl. rewrite !List.length_app.
    assert (length (join i1 (List.map (encode i1 k1) l))
            <= length (join i2 (List.map (encode i2 k2) l)))%nat; [|lia].
    apply length_join_le; [exact Hi|].
    induction Hl; constructor; assumption. }
  induction o as [ |[]| | |l IHl|l IHl|items IHitems] using value_nested_ind;
    try reflexivity.
  - apply Hseq, IHl.
  - apply Hseq, IHl.
  - cbn [encode]. rewrite !List.length_app.
    match goal with
    | |- (_ + (length ?a + _) <= _ + (length ?b + _))%nat =>
      assert (length a <= length b)%nat; [|lia]
    end.
    apply length_join_le; [exact Hi|].
    induction IHitems as [|kv items Hkv _ IH]; constructor; [|exact IH].
    rewrite !List.length_app. lia.
Qed.

(** X12.  The compressed text is never longer than the text [json.dumps]
    writes for the same value with its default separators [", "] and
    [": "]. *)
Theorem compressed_str_not_longer :
  forall r : Flask.Request,
    exists s d,
      FlaskRequestFormatter.payload_json_compressed_str r = Returned s
      /\ json_dumps (FlaskRequestFormatter.payload_json r) (py ", ", py ": ")
         = Returned d
      /\ (length s <= length d)%nat.
Proof.
  intros r. eexists. eexists. split; [reflexivity|]. split; [reflexivity|].
  apply length_encode_le; cbn; lia.
Qed.



(** ** The response accessors when the body cannot be read *)

(** X14.  When reading the body as text raises [RuntimeError] or a
    subclass of it, and the decoder rejects the empty text, the four
    response accessors all return: the raw text is empty, the decoded
    value is [None], the compressed text is [null], and the response is
    not classified as JSON, whatever its content type. *)
Theorem unreadable_body_accessors :
  forall (json_loads : pystr -> outcome value) (r : Flask.Response)
         (e : exn),
    Flask.get_data_as_text r = Raised e ->
    issubclass e RuntimeError = true ->
    json_loads (py "") = Raised JSONDecodeError ->
    FlaskResponseFormatter.response_raw r = Returned (py "")
    /\ FlaskResponseFormatter.response_json json_loads r = Returned VNone
    /\ FlaskResponseFormatter.response_json_compressed_str json_loads r
       = Returned (py "null")
    /\ FlaskResponseFormatter.response_is_json json_loads r
       = Returned false.
Proof.
  intros json_loads r e Hdata Hsub Hloads.
  assert (Hraw : FlaskResponseFormatter.response_raw r = Returned (py "")).
  { unfold FlaskResponseFormatter.response_raw, try_except.
    now rewrite Hdata, Hsub. }
  assert (Hjson : FlaskResponseFormatter.response_json json_loads r
                  = Returned VNone).
  { unfold FlaskResponseFormatter.response_json.
    rewrite Hraw. cbn [bind]. now rewrite Hloads. }
  repeat split.
  - exact Hraw.
  - exact Hjson.
  - unfold FlaskResponseFormatter.response_json_compressed_str.
    now rewrite Hjson.
  - unfold FlaskResponseFormatter.response_is_json.
    rewrite Hjson. now case_bool_decide.
Qed.

Lemma unreadable_body_accessors_witness :
  FlaskResponseFormatter.response_raw Samples.file_response
  = Returned (py "")
  /\ FlaskResponseFormatter.response_json Samples.loads_no_json
       Samples.file_response = Returned VNone
  /\ FlaskResponseFormatter.response_json_compressed_str
       Samples.loads_no_json Samples.file_response
     = Returned (py "null")
  /\ FlaskResponseFormatter.response_is_json Samples.loads_no_json
       Samples.file_response = Returned false.
Proof.
  apply (unreadable_body_accessors Samples.loads_no_json
           Samples.file_response RuntimeError); reflexivity.
Defined.

(** X15.  An exception of any other kind raised while reading the body
    (a [UnicodeDecodeError] for bytes that are not text, for instance) is
    not handled: it leaves [response_raw], [response_json] and
    [response_json_compressed_str], and it leaves [response_is_json] when
    the content type is [application/json]; with any other content type
    [response_is_json] does not read the body and returns false. *)
Theorem unhandled_body_error_propagates :
  forall (json_loads : pystr -> outcome value) (r : Flask.Response)
         (e : exn),
    Flask.get_data_as_text r = Raised e ->
    issubclass e RuntimeError = false ->
    issubclass e JSONDecodeError = false ->
    FlaskResponseFormatter.response_raw r = Raised e
    /\ FlaskResponseFormatter.response_json json_loads r = Raised e
    /\ FlaskResponseFormatter.response_json_compressed_str json_loads r
       = Raised e
    /\ FlaskResponseFormatter.response_is_json json_loads r
       = (if bool_decide (Flask.content_type r
                          = Some (py "application/json"))
          then Raised e else Returned false).
Proof.
  intros json_loads r e Hdata Hrun Hjs.
  assert (Hraw : FlaskResponseFormatter.response_raw r = Raised e).
  { unfold FlaskResponseFormatter.response_raw, try_except.
    now rewrite Hdata, Hrun. }
  assert (Hjson : FlaskResponseFormatter.response_json json_loads r
                  = Raised e).
  { unfold FlaskResponseFormatter.response_json, try_except.
    rewrite Hraw. cbn [bind]. now rewrite Hjs. }
  repeat split.
  - exact Hraw.
  - exact Hjson.
  - unfold FlaskResponseFormatter.response_json_compressed_str, try_except.
    rewrite Hjson. cbn [bind]. now rewrite Hjs.
  - unfold FlaskResponseFormatter.response_is_json. now rewrite Hjson.
Qed.

Lemma unhandled_body_error_propagates_witness :
  FlaskResponseFormatter.response_raw Samples.garbled_response
  = Raised UnicodeDecodeError
  /\ FlaskResponseFormatter.response_json Samples.loads_no_json
       Samples.garbled_response = Raised UnicodeDecodeError
  /\ FlaskResponseFormatter.response_json_compressed_str
       Samples.loads_no_json Samples.garbled_response
     = Raised UnicodeDecodeError
  /\ FlaskResponseFormatter.response_is_json Samples.loads_no_json
       Samples.garbled_response
     = (if bool_decide (Flask.content_type Samples.garbled_response
                        = Some (py "application/json"))
        then Raised UnicodeDecodeError else Returned false).
Proof.
  apply (unhandled_body_error_propagates Samples.loads_no_json
           Samples.garbled_response UnicodeDecodeError); reflexivity.
Defined.

(** ** Decoding and encoding UTF-8 *)

Ltac div_lia := zify; Z.to_euclidean_division_equations; lia.

Lemma to_N_byte_of (n : N) : n < 256 -> Byte.to_N (byte_of n) = n.
Proof.
  intros H. unfold byte_of.
  destruct (Byte.of_N n) as [b|] eqn:Hb; cbn [default].
  - now apply Byte.to_of_N.
  - apply Byte.of_N_None_iff in Hb. lia.
Qed.

Lemma in_range_true lo hi x : lo <= x -> x <= hi -> in_range lo hi x = true.
Proof. intros. unfold in_range. apply andb_true_intro. split; now apply N.leb_le. Qed.
Lemma in_range_false_lo lo hi x : x < lo -> in_range lo hi x = false.
Proof. intros. unfold in_range. apply andb_false_intro1. now apply N.leb_gt. Qed.
Lemma in_range_false_hi lo hi x : hi < x -> in_range lo hi x = false.
Proof. intros. unfold in_range. apply andb_false_intro2. now apply N.leb_gt. Qed.

Lemma decode_encode_char (c : N) (rest : list byte) :
  is_scalar c = true ->
  utf8_decode (utf8_encode_char c ++ rest) = cons c <$> utf8_decode rest.
Proof.
  intros Hc. unfold is_scalar, in_range in Hc.
  apply orb_prop in Hc.
  unfold utf8_encode_char.
  destruct (N.ltb_spec c 0x80) as [H1|H1].
  - cbn [app utf8_decode]. rewrite to_N_byte_of by lia.
    destruct (N.ltb_spec c 0x80); [reflexivity | lia].
  - destruct (N.ltb_spec c 0x800) as [H2|H2].
    + cbn [app utf8_decode].
      rewrite !to_N_byte_of by div_lia.
      destruct (N.ltb_spec (0xC0 + c / 0x40) 0x80); [div_lia|].
      rewrite in_range_true by div_lia.
      rewrite in_range_true by div_lia.
      replace ((0xC0 + c / 0x40 - 0xC0) * 0x40 + (0x80 + c mod 0x40 - 0x80)) with c by div_lia.
      reflexivity.
    + assert (Hs : c < 0xD800 \/ 0xE000 <= c <= 0x10FFFF).
      { destruct Hc as [Hc|Hc]; [left; now apply N.ltb_lt|right].
        apply andb_prop in Hc as [Ha Hb]. apply N.leb_le in Ha, Hb. lia. }
      clear Hc.
      destruct (N.ltb_spec c 0x10000) as [H3|H3].
      * cbn [app utf8_decode].
        rewrite !to_N_byte_of by div_lia.
        destruct (N.ltb_spec (0xE0 + c / 0x1000) 0x80); [div_lia|].
        rewrite (in_range_false_hi 0xC2 0xDF) by div_lia.
        rewrite (in_range_true 0xE0 0xEF) by div_lia.
        rewrite (in_range_true 0x80 0xBF (0x80 + c mod 0x40)) by div_lia.
        rewrite andb_true_r.
        rewrite in_range_true.
        -- replace ((0xE0 + c / 0x1000 - 0xE0) * 0x1000
                    + (0x80 + c / 0x40 mod 0x40 - 0x80) * 0x40
                    + (0x80 + c mod 0x40 - 0x80)) with c by div_lia.
           reflexivity.
        -- destruct (N.eqb_spec (0xE0 + c / 0x1000) 0xE0); div_lia.
        -- destruct (N.eqb_spec (0xE0 + c / 0x1000) 0xED); div_lia.
      * cbn [app utf8_decode].
        rewrite !to_N_byte_of by div_lia.
        destruct (N.ltb_spec (0xF0 + c / 0x40000) 0x80); [div_lia|].
        rewrite (in_range_false_hi 0xC2 0xDF) by div_lia.
        rewrite (in_range_false_hi 0xE0 0xEF) by div_lia.
        rewrite (in_range_true 0xF0 0xF4) by div_lia.
        rewrite (in_range_true 0x80 0xBF (0x80 + c mod 0x40)) by div_lia.
        rewrite (in_range_true 0x80 0xBF (0x80 + c / 0x40 mod 0x40))
          by div_lia.
        rewrite !andb_true_r.
        rewrite in_range_true.
        -- replace ((0xF0 + c / 0x40000 - 0xF0) * 0x40000
                    + (0x80 + c / 0x1000 mod 0x40 - 0x80) * 0x1000
                    + (0x80 + c / 0x40 mod 0x40 - 0x80) * 0x40
                    + (0x80 + c mod 0x40 - 0x80)) with c by div_lia.
           reflexivity.
        -- destruct (N.eqb_spec (0xF0 + c / 0x40000) 0xF0); div_lia.
        -- destruct (N.eqb_spec (0xF0 + c / 0x40000) 0xF4); div_lia.
Qed.

Lemma byte_of_to_N (b : byte) : byte_of (Byte.to_N b) = b.
Proof. unfold byte_of. now rewrite Byte.of_to_N. Qed.

Lemma in_range_spec lo hi x : in_range lo hi x = true <-> lo <= x <= hi.
Proof.
  unfold in_range. rewrite andb_true_iff, !N.leb_le. tauto.
Qed.

Lemma is_scalar_spec c :
  is_scalar c = true <-> c < 0xD800 \/ 0xE000 <= c <= 0x10FFFF.
Proof.
  unfold is_scalar. rewrite orb_true_iff, N.ltb_lt, in_range_spec. tauto.
Qed.

Lemma byte_of_eq (n : N) (b : byte) : n = Byte.to_N b -> byte_of n = b.
Proof. intros ->. apply byte_of_to_N. Qed.

Lemma encode_decode_aux (n : nat) : forall (bs : list byte) (s : pystr),
  (length bs <= n)%nat ->
  utf8_decode bs = Some s ->
  forallb is_scalar s = true /\ flat_map utf8_encode_char s = bs.
Proof.
  induction n as [|n IH]; intros bs s Hlen H.
  - destruct bs; [|cbn in Hlen; lia]. injection H as <-. now split.
  - destruct bs as [|b0 r0]; [injection H as <-; now split|].
    cbn [utf8_decode] in H. cbn zeta in H.
    pose proof (Byte.to_N_bounded b0) as Hb0.
    destruct (N.ltb_spec (Byte.to_N b0) 0x80) as [H0|H0].
    { destruct (utf8_decode r0) as [s0|] eqn:Hr0; [|discriminate H].
      injection H as <-.
      destruct (IH r0 s0) as [Hs Hf]; [cbn in Hlen; lia | exact Hr0 |].
      split.
      - cbn [forallb]. rewrite Hs, andb_true_r. apply is_scalar_spec. lia.
      - cbn [flat_map]. rewrite Hf. unfold utf8_encode_char.
        destruct (N.ltb_spec (Byte.to_N b0) 0x80); [|lia].
        now rewrite byte_of_to_N. }
    destruct (in_range 0xC2 0xDF (Byte.to_N b0)) eqn:HC.
    { apply in_range_spec in HC.
      destruct r0 as [|b1 r1]; [discriminate H|].
      pose proof (Byte.to_N_bounded b1) as Hb1.
      destruct (in_range 0x80 0xBF (Byte.to_N b1)) eqn:H1; [|discriminate H].
      apply in_range_spec in H1.
      destruct (utf8_decode r1) as [s1|] eqn:Hr1; [|discriminate H].
      injection H as <-.
      destruct (IH r1 s1) as [Hs Hf]; [cbn in Hlen; lia | exact Hr1 |].
      set (c := (Byte.to_N b0 - 0xC0) * 0x40 + (Byte.to_N b1 - 0x80)).
      assert (Hc : 0x80 <= c < 0x800) by (subst c; lia).
      split.
      - cbn [forallb]. rewrite Hs, andb_true_r. apply is_scalar_spec. lia.
      - cbn [flat_map]. rewrite Hf. unfold utf8_encode_char.
        destruct (N.ltb_spec c 0x80); [lia|].
        destruct (N.ltb_spec c 0x800); [|lia].
        cbn [app]. f_equal; [|f_equal]; apply byte_of_eq; subst c; div_lia. }
    destruct (in_range 0xE0 0xEF (Byte.to_N b0)) eqn:HE.
    { apply in_range_spec in HE.
      destruct r0 as [|b1 [|b2 r2]]; try discriminate H.
      pose proof (Byte.to_N_bounded b1) as Hb1.
      pose proof (Byte.to_N_bounded b2) as Hb2.
      match type of H with
      | (if ?a && ?b then _ else _) = _ =>
        destruct a eqn:H1; [|discriminate H];
        destruct b eqn:H2; [|discriminate H]
      end.
      cbn [andb] in H.
      apply in_range_spec in H1, H2.
      destruct (utf8_decode r2) as [s2|] eqn:Hr2; [|discriminate H].
      injection H as <-.
      destruct (IH r2 s2) as [Hs Hf]; [cbn in Hlen; lia | exact Hr2 |].
      set (c := (Byte.to_N b0 - 0xE0) * 0x1000 + (Byte.to_N b1 - 0x80) * 0x40
                + (Byte.to_N b2 - 0x80)).
      assert (Hc : 0x800 <= c < 0x10000 /\ (c < 0xD800 \/ 0xE000 <= c)
                   /\ 0x80 <= Byte.to_N b1 <= 0xBF).
      { subst c.
        destruct (N.eqb_spec (Byte.to_N b0) 0xE0);
          destruct (N.eqb_spec (Byte.to_N b0) 0xED);
          cbv iota in H1; lia. }
      clear H1.
      split.
      - cbn [forallb]. rewrite Hs, andb_true_r. apply is_scalar_spec. lia.
      - cbn [flat_map]. rewrite Hf. unfold utf8_encode_char.
        destruct (N.ltb_spec c 0x80); [lia|].
        destruct (N.ltb_spec c 0x800); [lia|].
        destruct (N.ltb_spec c 0x10000); [|lia].
        cbn [app]. f_equal; [|f_equal; [|f_equal]];
          apply byte_of_eq; subst c; div_lia. }
    destruct (in_range 0xF0 0xF4 (Byte.to_N b0)) eqn:HF; [|discriminate H].
    apply in_range_spec in HF.
    destruct r0 as [|b1 [|b2 [|b3 r3]]]; try discriminate H.
    pose proof (Byte.to_N_bounded b1) as Hb1.
    pose proof (Byte.to_N_bounded b2) as Hb2.
    pose proof (Byte.to_N_bounded b3) as Hb3.
    match type of H with
    | (if ?a && ?b && ?d then _ else _) = _ =>
      destruct a eqn:H1; [|discriminate H];
      destruct b eqn:H2; [|discriminate H];
      destruct d eqn:H3; [|discriminate H]
    end.
    cbn [andb] in H.
    apply in_range_spec in H1, H2, H3.
    destruct (utf8_decode r3) as [s3|] eqn:Hr3; [|discriminate H].
    injection H as <-.
    destruct (IH r3 s3) as [Hs Hf]; [cbn in Hlen; lia | exact Hr3 |].
    set (c := (Byte.to_N b0 - 0xF0) * 0x40000 + (Byte.to_N b1 - 0x80) * 0x1000
              + (Byte.to_N b2 - 0x80) * 0x40 + (Byte.to_N b3 - 0x80)).
    assert (Hc : 0x10000 <= c <= 0x10FFFF /\ 0x80 <= Byte.to_N b1 <= 0xBF).
    { subst c.
      destruct (N.eqb_spec (Byte.to_N b0) 0xF0);
        destruct (N.eqb_spec (Byte.to_N b0) 0xF4);
        cbv iota in H1; lia. }
    clear H1.
    split.
    + cbn [forallb]. rewrite Hs, andb_true_r. apply is_scalar_spec. lia.
    + cbn [flat_map]. rewrite Hf. unfold utf8_encode_char.
      destruct (N.ltb_spec c 0x80); [lia|].
      destruct (N.ltb_spec c 0x800); [lia|].
      destruct (N.ltb_spec c 0x10000); [lia|].
      cbn [app]. f_equal; [|f_equal; [|f_equal; [|f_equal]]];
        apply byte_of_eq; subst c; div_lia.
Qed.

Lemma decode_encode (s : pystr) :
  forallb is_scalar s = true ->
  utf8_decode (flat_map utf8_encode_char s) = Some s.
Proof.
  induction s as [|c s IH]; intros H; [reflexivity|].
  cbn [forallb] in H. apply andb_prop in H as [Hc Hs].
  cbn [flat_map]. rewrite (decode_encode_char c _ Hc), (IH Hs). reflexivity.
Qed.

Lemma bytes_decode_iff_encode (bs : list byte) (s : pystr) :
  bytes_decode bs = Returned s <-> str_encode s = Returned bs.
Proof.
  unfold bytes_decode, str_encode. split.
  - destruct (utf8_decode bs) as [s'|] eqn:Hd; [|discriminate].
    intros H. injection H as ->.
    destruct (encode_decode_aux (length bs) bs s (le_n _) Hd) as [Hs Hf].
    now rewrite Hs, Hf.
  - destruct (forallb is_scalar s) eqn:Hs; [|discriminate].
    intros H. injection H as <-. now rewrite (decode_encode s Hs).
Qed.

Lemma decoding_accessor (bs : list byte) :
  try_except (bytes_decode bs) UnicodeEncodeError (Returned (py ""))
  = bytes_decode bs.
Proof. unfold bytes_decode. destruct (utf8_decode bs); reflexivity. Qed.

(** X16.  [payload_raw] and [query_string] return the text [s] exactly
    when the body, respectively the query string, is the UTF-8 encoding of
    [s]: a well-formed input is decoded to the text it encodes, and
    nothing else is accepted. *)
Theorem decoded_text_is_the_encoded_one :
  forall (r : Flask.Request) (s : pystr),
    (FlaskRequestFormatter.payload_raw r = Returned s
     <-> str_encode s = Returned (Flask.get_data r))
    /\ (FlaskRequestFormatter.query_string r = Returned s
        <-> str_encode s = Returned (Flask.query_string r)).
Proof.
  intros r s.
  unfold FlaskRequestFormatter.payload_raw,
    FlaskRequestFormatter.query_string.
  rewrite !decoding_accessor. split; apply bytes_decode_iff_encode.
Qed.


(** ** The demo application *)

Section DemoApplication.
Variable json_loads : pystr -> outcome value.
Variable timedelta_str : Z -> pystr.
Variable strftime : Time -> pystr.
Variable default_config : Config.

(** The closure registered by the constructor holds the two configured
    values. *)
Lemma demo_closure :
  after_request_funcs
    <$> snd (Demo.response_handler default_config)
  = Some [{| filter_status_codes := [VInt 500; VInt 503];
             filter_status_codes_exclude_only := false;
             filter_status_codes_empty := false |}].
Proof.
  unfold Demo.response_handler, init, Demo.app. cbn [snd fmap option_fmap option_map].
  unfold init_app. cbn [after_request_funcs config config_setitem app].
  unfold init_app_closure, config_get.
  change (__label_status_codes__ (new (py "REQUEST_RESPONSE_PROCESSOR")))
    with (py "REQUEST_RESPONSE_PROCESSOR_STATUS_CODES").
  change (__label_status_codes_exclude_only_
            (new (py "REQUEST_RESPONSE_PROCESSOR")))
    with (py "REQUEST_RESPONSE_PROCESSOR_STATUS_CODES_EXCLUDE_ONLY").
  rewrite lookup_insert_ne by discriminate.
  rewrite !lookup_insert_eq. reflexivity.
Qed.

Lemma demo_serve start_time end_time request response records :
  Demo.serve json_loads timedelta_str strftime default_config
    start_time end_time request response records
  = run (after_request
           {| filter_status_codes := [VInt 500; VInt 503];
              filter_status_codes_exclude_only := false;
              filter_status_codes_empty := false |}
           (Demo.registered json_loads timedelta_str strftime
              default_config)
           request
           (before_request start_time {| frr_start_time := None |})
           end_time response)
        records.
Proof. unfold Demo.serve. rewrite demo_closure. reflexivity. Qed.

Lemma demo_process_func (response : Flask.Response) :
  process_func {| filter_status_codes := [VInt 500; VInt 503];
                  filter_status_codes_exclude_only := false;
                  filter_status_codes_empty := false |} response
  = ((Flask.status_code response =? 500)%Z
     || (Flask.status_code response =? 503)%Z).
Proof.
  unfold process_func, int_in. cbn.
  now rewrite xorb_false_r, orb_false_r.
Qed.

Lemma demo_registered :
  __process_request_response_f__
    (Demo.registered json_loads timedelta_str strftime default_config)
  = Some (Demo.process_request_response json_loads timedelta_str strftime).
Proof. reflexivity. Qed.

(** A run of the demo application on a status code the filter passes. *)
Lemma demo_serve_passing start_time end_time request response records :
  Flask.status_code response = 500%Z
  \/ Flask.status_code response = 503%Z ->
  let f := Demo.process_request_response json_loads timedelta_str strftime in
  let args := {| request := request; response := response;
                 request_start_time := start_time;
                 request_end_time := end_time |} in
  Demo.serve json_loads timedelta_str strftime default_config
    start_time end_time request response records
  = match f args records with
    | (Returned _, w') =>
      (Returned response, {| world := w'; trace := [Called f args] |})
    | (Raised e, w') =>
      (Returned response,
       {| world := w';
          trace := [Called f args; LoggedError error_message e] |})
    end.
Proof.
  intros Hstatus f args. rewrite demo_serve.
  rewrite (after_request_registered _ _ f request
             (before_request start_time {| frr_start_time := None |})
             start_time end_time response records demo_registered eq_refl).
  rewrite demo_process_func.
  destruct Hstatus as [-> | ->]; reflexivity.
Qed.

End DemoApplication.

(** X18.  In the demo application a response whose status code is neither
    500 nor 503 is passed on untouched: the decorated function is not
    called and no record is written, whatever the request is. *)
Theorem demo_ignores_other_status_codes :
  forall (json_loads : pystr -> outcome value)
         (timedelta_str : Z -> pystr) (strftime : Time -> pystr)
         (default_config : Config) (start_time end_time : Time)
         (request : Flask.Request) (response : Flask.Response)
         (records : list value),
    Flask.status_code response <> 500%Z ->
    Flask.status_code response <> 503%Z ->
    Demo.serve json_loads timedelta_str strftime default_config
      start_time end_time request response records
    = (Returned response, {| world := records; trace := [] |}).
Proof.
  intros json_loads timedelta_str strftime default_config start_time
         end_time request response records H500 H503.
  rewrite demo_serve. apply after_request_inert. left.
  rewrite demo_process_func.
  apply orb_false_intro; now apply Z.eqb_neq.
Qed.

Lemma demo_ignores_other_status_codes_witness :
  Demo.serve Samples.loads_no_json (fun _ => py "0:00:00.000015")
    (fun _ => py "03 November, 2026 10:00:00") ∅
    10 25 Samples.json_object Samples.ok_response []
  = (Returned Samples.ok_response, {| world := []; trace := [] |}).
Proof.
  apply (demo_ignores_other_status_codes Samples.loads_no_json
           (fun _ => py "0:00:00.000015")
           (fun _ => py "03 November, 2026 10:00:00") ∅
           10%Z 25%Z Samples.json_object Samples.ok_response []);
    discriminate.
Defined.

(** X19.  For a response with status code 500 or 503 whose payload and
    response texts can be produced, the demo application calls the
    decorated function once and writes exactly one record: the status
    code, path and method of the exchange, the payload text, the response
    text, the formatted end time and the elapsed time. *)
Theorem demo_writes_one_record :
  forall (json_loads : pystr -> outcome value)
         (timedelta_str : Z -> pystr) (strftime : Time -> pystr)
         (default_config : Config) (start_time end_time : Time)
         (request : Flask.Request) (response : Flask.Response)
         (records : list value) (payload response_data : pystr),
    let args := {| request := request; response := response;
                   request_start_time := start_time;
                   request_end_time := end_time |} in
    Flask.status_code response = 500%Z
    \/ Flask.status_code response = 503%Z ->
    Demo.payload_of request = Returned payload ->
    Demo.response_data_of json_loads response = Returned response_data ->
    Demo.serve json_loads timedelta_str strftime default_config
      start_time end_time request response records
    = (Returned response,
       {| world :=
            records
            ++ [VDict [(py "status_code", VInt (Flask.status_code response));
                       (py "path", VStr (Flask.path request));
                       (py "payload", VStr payload);
                       (py "date", VStr (strftime end_time));
                       (py "time",
                        VStr (timedelta_str (end_time - start_time)%Z));
                       (py "method", VStr (Flask.method request));
                       (py "response", VStr response_data)]];
          trace :=
            [Called (Demo.process_request_response json_loads
                       timedelta_str strftime) args] |}).
Proof.
  intros json_loads timedelta_str strftime default_config start_time
         end_time request response records payload response_data args
         Hstatus Hpayload Hdata.
  rewrite (demo_serve_passing json_loads timedelta_str strftime
             default_config start_time end_time request response records
             Hstatus).
  subst args. unfold Demo.process_request_response.
  cbn [Processor.request Processor.response].
  rewrite Hpayload, Hdata. reflexivity.
Qed.

Lemma demo_writes_one_record_witness :
  Demo.serve Samples.loads_no_json (fun _ => py "0:00:00.000015")
    (fun _ => py "03 November, 2026 10:00:00") ∅
    10 25 Samples.json_object Samples.unavailable_response []
  = (Returned Samples.unavailable_response,
     {| world :=
          [] ++ [VDict [(py "status_code", VInt 503);
                        (py "path", VStr (py "/ok"));
                        (py "payload",
                         VStr (encode (py ",") (py ":")
                                 (VDict [(py "a", VInt 1)])));
                        (py "date", VStr (py "03 November, 2026 10:00:00"));
                        (py "time", VStr (py "0:00:00.000015"));
                        (py "method", VStr (py "POST"));
                        (py "response", VStr (py "Service Unavailable"))]];
        trace :=
          [Called (Demo.process_request_response Samples.loads_no_json
                     (fun _ => py "0:00:00.000015")
                     (fun _ => py "03 November, 2026 10:00:00"))
                  {| request := Samples.json_object;
                     response := Samples.unavailable_response;
                     request_start_time := 10;
                     request_end_time := 25 |}] |}).
Proof.
  apply (demo_writes_one_record Samples.loads_no_json
           (fun _ => py "0:00:00.000015")
           (fun _ => py "03 November, 2026 10:00:00") ∅
           10%Z 25%Z Samples.json_object Samples.unavailable_response []
           (encode (py ",") (py ":") (VDict [(py "a", VInt 1)]))
           (py "Service Unavailable")).
  - right. reflexivity.
  - reflexivity.
  - reflexivity.
Defined.

(** X20.  In the demo application a request whose body is not UTF-8 and
    is not classified as JSON leaves no record, even when the status code
    is 500 or 503: the decorated function raises [UnicodeDecodeError]
    while reading the payload, the hook logs the error, and the response
    is returned as it was. *)
Theorem demo_undecodable_body_writes_nothing :
  forall (json_loads : pystr -> outcome value)
         (timedelta_str : Z -> pystr) (strftime : Time -> pystr)
         (default_config : Config) (start_time end_time : Time)
         (request : Flask.Request) (response : Flask.Response)
         (records : list value),
    let args := {| request := request; response := response;
                   request_start_time := start_time;
                   request_end_time := end_time |} in
    Flask.status_code response = 500%Z
    \/ Flask.status_code response = 503%Z ->
    FlaskRequestFormatter.payload_is_json request = false ->
    bytes_decode (Flask.get_data request) = Raised UnicodeDecodeError ->
    Demo.serve json_loads timedelta_str strftime default_config
      start_time end_time request response records
    = (Returned response,
       {| world := records;
          trace :=
            [Called (Demo.process_request_response json_loads
                       timedelta_str strftime) args;
             LoggedError error_message UnicodeDecodeError] |}).
Proof.
  intros json_loads timedelta_str strftime default_config start_time
         end_time request response records args Hstatus Hjson Hbody.
  rewrite (demo_serve_passing json_loads timedelta_str strftime
             default_config start_time end_time request response records
             Hstatus).
  subst args. unfold Demo.process_request_response, Demo.payload_of.
  cbn [Processor.request Processor.response].
  rewrite Hjson. unfold FlaskRequestFormatter.payload_raw.
  rewrite Hbody. reflexivity.
Qed.

Lemma demo_undecodable_body_writes_nothing_witness :
  Demo.serve Samples.loads_no_json (fun _ => py "0:00:00.000015")
    (fun _ => py "03 November, 2026 10:00:00") ∅
    10 25 Samples.post_binary Samples.unavailable_response []
  = (Returned Samples.unavailable_response,
     {| world := [];
        trace :=
          [Called (Demo.process_request_response Samples.loads_no_json
                     (fun _ => py "0:00:00.000015")
                     (fun _ => py "03 November, 2026 10:00:00"))
                  {| request := Samples.post_binary;
                     response := Samples.unavailable_response;
                     request_start_time := 10;
                     request_end_time := 25 |};
           LoggedError error_message UnicodeDecodeError] |}).
Proof.
  apply (demo_undecodable_body_writes_nothing Samples.loads_no_json
           (fun _ => py "0:00:00.000015")
           (fun _ => py "03 November, 2026 10:00:00") ∅
           10%Z 25%Z Samples.post_binary Samples.unavailable_response []).
  - right. reflexivity.
  - reflexivity.
  - reflexivity.
Defined.

(** ** The request formatter's instance dictionary *)

Section CachedProperty.
Import RequestFormatterObject.

Lemma kept_refl (self : t) : consistent self -> kept self self.
Proof. now split. Qed.

Lemma consistent_init (request : Flask.Request) : consistent (init request).
Proof.
  unfold consistent, init. cbn. repeat split; intros v H; discriminate H.
Qed.

Ltac store_consistent :=
  intros [request d] v [_ Hc] Hv; split; [reflexivity|];
  unfold consistent in *; cbn in *;
  destruct Hc as (H1 & H2 & H3 & H4 & H5 & H6);
  repeat split; intros x Hx;
  first [ injection Hx as <-; exact Hv
        | now apply H1 | now apply H2 | now apply H3
        | now apply H4 | now apply H5 | now apply H6 ].

Lemma store_query_string self v :
  kept self self ->
  FlaskRequestFormatter.query_string (__request__ self) = Returned v ->
  kept self {| __request__ := __request__ self;
               __dict__ := store_attr attr_query_string v (__dict__ self) |}.
Proof. revert self v. store_consistent. Qed.

Lemma store_headers self v :
  kept self self ->
  FlaskRequestFormatter.headers (__request__ self) = v ->
  kept self {| __request__ := __request__ self;
               __dict__ := store_attr attr_headers v (__dict__ self) |}.
Proof. revert self v. store_consistent. Qed.

Lemma store_payload_raw self v :
  kept self self ->
  FlaskRequestFormatter.payload_raw (__request__ self) = Returned v ->
  kept self {| __request__ := __request__ self;
               __dict__ := store_attr attr_payload_raw v (__dict__ self) |}.
Proof. revert self v. store_consistent. Qed.

Lemma store_payload_json self v :
  kept self self ->
  FlaskRequestFormatter.payload_json (__request__ self) = v ->
  kept self {| __request__ := __request__ self;
               __dict__ := store_attr attr_payload_json v (__dict__ self) |}.
Proof. revert self v. store_consistent. Qed.

Lemma store_payload_json_compressed_str self v :
  kept self self ->
  FlaskRequestFormatter.payload_json_compressed_str (__request__ self)
  = Returned v ->
  kept self {| __request__ := __request__ self;
               __dict__ := store_attr attr_payload_json_compressed_str v
                             (__dict__ self) |}.
Proof. revert self v. store_consistent. Qed.

Lemma store_payload_is_json self v :
  kept self self ->
  FlaskRequestFormatter.payload_is_json (__request__ self) = v ->
  kept self {| __request__ := __request__ self;
               __dict__ := store_attr attr_payload_is_json v (__dict__ self) |}.
Proof. revert self v. store_consistent. Qed.

Lemma get_query_string_spec self :
  consistent self ->
  fst (get_query_string self)
  = FlaskRequestFormatter.query_string (__request__ self)
  /\ kept self (snd (get_query_string self)).
Proof.
  intros Hc. pose proof Hc as (H1 & _).
  unfold get_query_string, cached_property.
  cbn [lookup_attr attr_query_string].
  destruct (query_string (__dict__ self)) as [v|] eqn:Hd.
  - split; [symmetry; now apply H1 | now apply kept_refl].
  - change (try_except _ UnicodeEncodeError _)
      with (FlaskRequestFormatter.query_string (__request__ self)).
    destruct (FlaskRequestFormatter.query_string (__request__ self))
      as [v|e] eqn:Hq; cbn [fst snd].
    + split; [reflexivity|].
      apply store_query_string; [now apply kept_refl | exact Hq].
    + split; [reflexivity | now apply kept_refl].
Qed.

Lemma get_payload_raw_spec self :
  consistent self ->
  fst (get_payload_raw self)
  = FlaskRequestFormatter.payload_raw (__request__ self)
  /\ kept self (snd (get_payload_raw self)).
Proof.
  intros Hc. pose proof Hc as (_ & _ & H3 & _).
  unfold get_payload_raw, cached_property.
  cbn [lookup_attr attr_payload_raw].
  destruct (payload_raw (__dict__ self)) as [v|] eqn:Hd.
  - split; [symmetry; now apply H3 | now apply kept_refl].
  - change (try_except _ UnicodeEncodeError _)
      with (FlaskRequestFormatter.payload_raw (__request__ self)).
    destruct (FlaskRequestFormatter.payload_raw (__request__ self))
      as [v|e] eqn:Hq; cbn [fst snd].
    + split; [reflexivity|].
      apply store_payload_raw; [now apply kept_refl | exact Hq].
    + split; [reflexivity | now apply kept_refl].
Qed.

Lemma get_headers_spec self :
  consistent self ->
  get_headers self
  = (Returned (FlaskRequestFormatter.headers (__request__ self)),
     snd (get_headers self))
  /\ kept self (snd (get_headers self)).
Proof.
  intros Hc. pose proof Hc as (_ & H2 & _).
  unfold get_headers, cached_property.
  cbn [lookup_attr attr_headers].
  destruct (headers (__dict__ self)) as [v|] eqn:Hd; cbn [fst snd].
  - rewrite (H2 v eq_refl). split; [reflexivity | now apply kept_refl].
  - split; [reflexivity|].
    apply store_headers; [now apply kept_refl | reflexivity].
Qed.

Lemma get_payload_json_spec self :
  consistent self ->
  get_payload_json self
  = (Returned (FlaskRequestFormatter.payload_json (__request__ self)),
     snd (get_payload_json self))
  /\ kept self (snd (get_payload_json self)).
Proof.
  intros Hc. pose proof Hc as (_ & _ & _ & H4 & _).
  unfold get_payload_json, cached_property.
  cbn [lookup_attr attr_payload_json].
  destruct (payload_json (__dict__ self)) as [v|] eqn:Hd; cbn [fst snd].
  - rewrite (H4 v eq_refl). split; [reflexivity | now apply kept_refl].
  - split; [reflexivity|].
    apply store_payload_json; [now apply kept_refl | reflexivity].
Qed.

Lemma kept_trans self self' self'' :
  kept self self' -> kept self' self'' -> kept self self''.
Proof. intros [H1 _] [H2 H3]. split; [congruence | exact H3]. Qed.

Lemma get_payload_json_compressed_str_spec self :
  consistent self ->
  fst (get_payload_json_compressed_str self)
  = FlaskRequestFormatter.payload_json_compressed_str (__request__ self)
  /\ kept self (snd (get_payload_json_compressed_str self)).
Proof.
  intros Hc. pose proof Hc as (_ & _ & _ & _ & H5 & _).
  unfold get_payload_json_compressed_str, cached_property.
  cbn [lookup_attr attr_payload_json_compressed_str].
  destruct (payload_json_compressed_str (__dict__ self)) as [v|] eqn:Hd.
  - split; [symmetry; now apply H5 | now apply kept_refl].
  - destruct (get_payload_json_spec self Hc) as [Heq Hk].
    rewrite Heq. set (self1 := snd (get_payload_json self)) in *.
    cbn [fst snd]. split; [reflexivity|].
    destruct Hk as [Hr Hc1].
    eapply kept_trans; [split; [exact Hr | exact Hc1]|].
    apply (store_payload_json_compressed_str self1);
      [now apply kept_refl | now rewrite Hr].
Qed.

Lemma get_payload_is_json_spec self :
  consistent self ->
  fst (get_payload_is_json self)
  = Returned (FlaskRequestFormatter.payload_is_json (__request__ self))
  /\ kept self (snd (get_payload_is_json self)).
Proof.
  intros Hc. pose proof Hc as (_ & _ & _ & _ & _ & H6).
  unfold get_payload_is_json, cached_property.
  cbn [lookup_attr attr_payload_is_json].
  destruct (payload_is_json (__dict__ self)) as [v|] eqn:Hd.
  - rewrite (H6 v eq_refl). split; [reflexivity | now apply kept_refl].
  - destruct (get_headers_spec self Hc) as [Heq Hk1].
    rewrite Heq. set (self1 := snd (get_headers self)) in *.
    pose proof Hk1 as [Hr1 Hc1].
    unfold FlaskRequestFormatter.payload_is_json. cbn zeta.
    destruct (FlaskRequestFormatter.headers (__request__ self)
                !! py "Content-Type") as [ct|] eqn:Hct.
    + case_bool_decide as Happ.
      * destruct (get_payload_json_spec self1 Hc1) as [Heq2 Hk2].
        rewrite Heq2. set (self2 := snd (get_payload_json self1)) in *.
        pose proof (kept_trans _ _ _ Hk1 Hk2) as Hk.
        pose proof Hk as [Hr2 Hc2].
        cbn [fst snd andb]. rewrite Hr1. split; [reflexivity|].
        eapply kept_trans; [exact Hk|].
        apply (store_payload_is_json self2); [now apply kept_refl|].
        unfold FlaskRequestFormatter.payload_is_json. cbn zeta.
        rewrite Hr2, Hct. rewrite bool_decide_eq_true_2 by exact Happ.
        reflexivity.
      * cbn [fst snd andb]. split; [reflexivity|].
        eapply kept_trans; [exact Hk1|].
        apply (store_payload_is_json self1); [now apply kept_refl|].
        unfold FlaskRequestFormatter.payload_is_json. cbn zeta.
        rewrite Hr1, Hct. rewrite bool_decide_eq_false_2 by exact Happ.
        reflexivity.
    + cbn [fst snd]. split; [reflexivity|].
      eapply kept_trans; [exact Hk1|].
      apply (store_payload_is_json self1); [now apply kept_refl|].
      unfold FlaskRequestFormatter.payload_is_json. cbn zeta.
      now rewrite Hr1, Hct.
Qed.

End CachedProperty.

Section CachedPropertyLaws.
Import RequestFormatterObject.
Context {A : Type} (name : Attr A) (func : Access A).
Hypothesis lookup_store :
  forall v d, lookup_attr name (store_attr name v d) = Some v.

(** A value that was returned is in the dictionary, and is what every
    later access returns, whatever the wrapped request has become. *)
Lemma cached_property_sticky self self' v request' :
  cached_property name func self = (Returned v, self') ->
  cached_property name func (with_request request' self')
  = (Returned v, with_request request' self').
Proof.
  unfold cached_property at 1.
  destruct (lookup_attr name (__dict__ self)) as [val|] eqn:Hd.
  - intros H. injection H as -> ->.
    unfold cached_property. cbn [with_request __dict__]. now rewrite Hd.
  - destruct (func self) as [[val|e] s1]; [|discriminate].
    intros H. injection H as -> <-.
    unfold cached_property. cbn [with_request __dict__].
    now rewrite lookup_store.
Qed.


End CachedPropertyLaws.



(** X21.  On a formatter whose stored values agree with the wrapped
    request, as they do on a new formatter, every attribute access
    returns what the decorated function gives for that request, leaves
    the wrapped request in place, and keeps the stored values in
    agreement: accesses in any number and order see the same values. *)
Theorem cached_accessors_agree :
  (forall request,
      RequestFormatterObject.consistent (RequestFormatterObject.init request))
  /\ (forall self,
         RequestFormatterObject.consistent self ->
         let r := RequestFormatterObject.__request__ self in
         (fst (RequestFormatterObject.get_query_string self)
          = FlaskRequestFormatter.query_string r
          /\ RequestFormatterObject.kept self
               (snd (RequestFormatterObject.get_query_string self)))
         /\ (fst (RequestFormatterObject.get_headers self)
             = Returned (FlaskRequestFormatter.headers r)
             /\ RequestFormatterObject.kept self
                  (snd (RequestFormatterObject.get_headers self)))
         /\ (fst (RequestFormatterObject.get_payload_raw self)
             = FlaskRequestFormatter.payload_raw r
             /\ RequestFormatterObject.kept self
                  (snd (RequestFormatterObject.get_payload_raw self)))
         /\ (fst (RequestFormatterObject.get_payload_json self)
             = Returned (FlaskRequestFormatter.payload_json r)
             /\ RequestFormatterObject.kept self
                  (snd (RequestFormatterObject.get_payload_json self)))
         /\ (fst (RequestFormatterObject.get_payload_json_compressed_str self)
             = FlaskRequestFormatter.payload_json_compressed_str r
             /\ RequestFormatterObject.kept self
                  (snd (RequestFormatterObject.get_payload_json_compressed_str
                          self)))
         /\ (fst (RequestFormatterObject.get_payload_is_json self)
             = Returned (FlaskRequestFormatter.payload_is_json r)
             /\ RequestFormatterObject.kept self
                  (snd (RequestFormatterObject.get_payload_is_json self)))).
Proof.
  split; [exact consistent_init|].
  intros self Hc r. subst r.
  split; [now apply get_query_string_spec|].
  split.
  { destruct (get_headers_spec self Hc) as [Heq Hk].
    split; [now rewrite Heq | exact Hk]. }
  split; [now apply get_payload_raw_spec|].
  split.
  { destruct (get_payload_json_spec self Hc) as [Heq Hk].
    split; [now rewrite Heq | exact Hk]. }
  split; [now apply get_payload_json_compressed_str_spec|].
  now apply get_payload_is_json_spec.
Qed.

(** X22.  Once an attribute access has returned a value, every later
    access of that attribute returns the same value without running the
    decorated function and without changing the instance, even if the
    wrapped request has changed in the meantime. *)
Theorem cached_value_is_kept :
  forall (self self' : RequestFormatterObject.t)
         (request' : Flask.Request),
    let later := RequestFormatterObject.with_request request' self' in
    (forall v, RequestFormatterObject.get_query_string self
               = (Returned v, self') ->
               RequestFormatterObject.get_query_string later
               = (Returned v, later))
    /\ (forall v, RequestFormatterObject.get_headers self
                  = (Returned v, self') ->
                  RequestFormatterObject.get_headers later
                  = (Returned v, later))
    /\ (forall v, RequestFormatterObject.get_payload_raw self
                  = (Returned v, self') ->
                  RequestFormatterObject.get_payload_raw later
                  = (Returned v, later))
    /\ (forall v, RequestFormatterObject.get_payload_json self
                  = (Returned v, self') ->
                  RequestFormatterObject.get_payload_json later
                  = (Returned v, later))
    /\ (forall v, RequestFormatterObject.get_payload_json_compressed_str self
                  = (Returned v, self') ->
                  RequestFormatterObject.get_payload_json_compressed_str later
                  = (Returned v, later))
    /\ (forall v, RequestFormatterObject.get_payload_is_json self
                  = (Returned v, self') ->
                  RequestFormatterObject.get_payload_is_json later
                  = (Returned v, later)).
Proof.
  intros self self' request' later. subst later.
  repeat split; intros v H;
    (eapply cached_property_sticky; [|exact H]); reflexivity.
Qed.


(** ** The compressed text [null] *)

Lemma int_repr_chars (z : Z) :
  Forall (fun c => c = 45 \/ 48 <= c <= 57) (int_repr z).
Proof.
  unfold int_repr.
  assert (Hd : forall d,
             Forall (fun c => c = 45 \/ 48 <= c <= 57)
                    (py (NilEmpty.string_of_uint d))).
  { induction d; cbn [NilEmpty.string_of_uint]; [constructor| ..];
      rewrite py_String; (constructor; [cbn; lia | exact IHd]). }
  assert (Hu : forall d,
             Forall (fun c => c = 45 \/ 48 <= c <= 57)
                    (py (NilZero.string_of_uint d))).
  { intros d. unfold NilZero.string_of_uint.
    destruct d; try apply Hd. constructor; [cbn; lia | constructor]. }
  destruct (Z.to_int z) as [d|d]; cbn [NilZero.string_of_int].
  - apply Hu.
  - rewrite py_String. constructor; [cbn; lia | apply Hu].
Qed.

Lemma encode_null (i k : pystr) (o : value) :
  encode i k o = py "null" <-> o = VNone.
Proof.
  split; [|now intros ->].
  destruct o as [ |[]|z|s|l|l|items]; try reflexivity; try discriminate.
  cbn [encode]. intros H. pose proof (int_repr_chars z) as Hz.
  rewrite H in Hz. inversion Hz as [|c s Hc _]; subst.
  cbn in Hc. lia.
Qed.

(** X24.  The compressed text is [null] exactly when there is no decoded
    value: for a request when [payload_json] is [None], for a response
    when [response_json] returned [None].  No other value is written as
    [null]. *)
Theorem compressed_null_iff_None :
  (forall r : Flask.Request,
      FlaskRequestFormatter.payload_json_compressed_str r
      = Returned (py "null")
      <-> FlaskRequestFormatter.payload_json r = VNone)
  /\ (forall (json_loads : pystr -> outcome value) (r : Flask.Response),
         FlaskResponseFormatter.response_json_compressed_str json_loads r
         = Returned (py "null")
         <-> FlaskResponseFormatter.response_json json_loads r
             = Returned VNone).
Proof.
  split.
  - intros r.
    change (FlaskRequestFormatter.payload_json_compressed_str r)
      with (Returned (encode (py ",") (py ":")
                        (FlaskRequestFormatter.payload_json r))).
    rewrite <- (encode_null (py ",") (py ":")).
    split; [intros H; now injection H | now intros ->].
  - intros json_loads r.
    destruct (response_compressed_cases json_loads r)
      as [(o & Ho & Hs)|(e & He & Hs)]; rewrite Hs.
    + rewrite Ho. split.
      * intros H. injection H as H. apply encode_null in H. now subst.
      * intros H. injection H as ->. reflexivity.
    + rewrite He. split; discriminate.
Qed.
